(** * Student Finance Manager: a shallow embedding of [app.py]

    The development follows the source file from top to bottom: the two
    dataclasses ([Transaction], [Student]), the [FinanceManager] with its
    dictionary of students, the reports, the JSON persistence and the
    command-line shell.

    Modelling choices, all local to this file:
    - a Python [float] is a primitive binary64 float; [+] and [-] are the
      IEEE operations and [round(x, 2)] is [round2] below;
    - a [Dict[str, Student]] is an association list in insertion order, the
      order in which [values()] enumerates it;
    - fields hold values of their annotated types ([str], [float]); a file
      whose fields hold values of another type is outside the model and
      [load] answers [None] for it;
    - the text of a file is not modelled: a file is absent, or it does not
      decode as JSON, or it is the value [json.load] returns for it, and
      [json.load] returns for a written file the value given to [json.dump];
      writing a file is taken to succeed;
    - the clock read by [datetime.now()] and the text printed by [print]
      are made explicit as an argument and as a result. *)

From Stdlib Require Import ZArith List String Bool Floats Lia.
Import ListNotations.
Open Scope string_scope.
Open Scope list_scope.

(* Decimal literals denote the nearest binary64 value, as in Python. *)
Set Warnings "-inexact-float".

(** ** Floats: [round(x, 2)]

    CPython rounds a finite float to two decimals in two correctly rounded
    steps: the exact binary value is rounded half-even to a multiple of 1/100
    (a decimal string), and that decimal is converted to the nearest float.
    Zeros, infinities and NaN are returned as they are, and a value that
    rounds to zero keeps its sign. *)

Definition prec : Z := 53.
Definition emax : Z := 1024.

(** [hundredths m e] is [m * 2^e * 100] rounded half-even to an integer. *)
Definition hundredths (m : positive) (e : Z) : Z :=
  let c := (Z.pos m * 100)%Z in
  match e with
  | Zneg p =>
      let d := Z.pow_pos 2 p in
      let q := (c / d)%Z in
      let r := (c mod d)%Z in
      match (2 * r ?= d)%Z with
      | Lt => q
      | Gt => (q + 1)%Z
      | Eq => if Z.even q then q else (q + 1)%Z
      end
  | _ => Z.shiftl c e
  end.

Definition round2 (x : float) : float :=
  match Prim2SF x with
  | S754_finite s m e =>
      match hundredths m e with
      | Zpos n =>
          SF2Prim (SFdiv prec emax (S754_finite s n 0) (S754_finite false 100 0))
      | _ => SF2Prim (S754_zero s)
      end
  | _ => x
  end.

(** ** Dictionaries with string keys, in insertion order *)

Section Dict.
Variable V : Type.

Definition dict := list (string * V).

Definition keys (d : dict) : list string := map fst d.
Definition values (d : dict) : list V := map snd d.

(** [d.get(k)] *)
Fixpoint dict_get (k : string) (d : dict) : option V :=
  match d with
  | [] => None
  | (k', v) :: rest => if String.eqb k k' then Some v else dict_get k rest
  end.

(** [k in d] *)
Definition dict_in (k : string) (d : dict) : bool :=
  match dict_get k d with Some _ => true | None => false end.

(** [d[k] = v]: a present key keeps its place, a new one goes last. *)
Fixpoint dict_set (k : string) (v : V) (d : dict) : dict :=
  match d with
  | [] => [(k, v)]
  | (k', v') :: rest =>
      if String.eqb k k' then (k', v) :: rest
      else (k', v') :: dict_set k v rest
  end.

(** [d.pop(k, None)]: the value removed, if any, and the dictionary left. *)
Fixpoint dict_pop (k : string) (d : dict) : option V * dict :=
  match d with
  | [] => (None, [])
  | (k', v) :: rest =>
      if String.eqb k k' then (Some v, rest)
      else let (r, rest') := dict_pop k rest in (r, (k', v) :: rest')
  end.
End Dict.

Arguments dict_get {V} k d.
Arguments dict_in {V} k d.
Arguments dict_set {V} k v d.
Arguments dict_pop {V} k d.
Arguments keys {V} d.
Arguments values {V} d.

(** ** JSON values, as [json.load] returns them and [json.dump] takes them *)

Unset Elimination Schemes.
Inductive json : Type :=
| JNull
| JBool (b : bool)
| JInt (n : Z)
| JFloat (x : float)
| JStr (s : string)
| JList (items : list json)
| JDict (members : list (string * json)).
Set Elimination Schemes.

(** ** The dataclasses *)

Record Transaction : Type := {
  ttype : string;        (* "income" or "expense" *)
  amount : float;
  description : string;
  date : string          (* YYYY-MM-DD *)
}.

Record Student : Type := {
  student_id : string;
  name : string;
  transactions : list Transaction
}.

(** [Transaction.to_dict], that is [asdict(self)] *)
Definition Transaction_to_dict (t : Transaction) : json :=
  JDict [("ttype", JStr (ttype t));
         ("amount", JFloat (amount t));
         ("description", JStr (description t));
         ("date", JStr (date t))].

(** [Student.to_dict] *)
Definition Student_to_dict (s : Student) : json :=
  JDict [("student_id", JStr (student_id s));
         ("name", JStr (name s));
         ("transactions", JList (map Transaction_to_dict (transactions s)))].

(** One turn of the loop of [Student.balance]. *)
Definition balance_step (bal : float) (t : Transaction) : float :=
  if String.eqb (ttype t) "income"
  then PrimFloat.add bal (amount t)
  else PrimFloat.sub bal (amount t).

(** [Student.balance] *)
Definition balance (s : Student) : float :=
  fold_left balance_step (transactions s) 0%float.

(** ** The manager *)

Record FinanceManager : Type := {
  students : dict Student
}.

(** [FinanceManager()] *)
Definition init : FinanceManager := {| students := [] |}.

Definition add_student (fm : FinanceManager) (sid nm : string)
  : bool * FinanceManager :=
  if dict_in sid (students fm) then (false, fm)
  else (true,
        {| students :=
             dict_set sid
               {| student_id := sid; name := nm; transactions := [] |}
               (students fm) |}).

Definition remove_student (fm : FinanceManager) (sid : string)
  : bool * FinanceManager :=
  let (r, rest) := dict_pop sid (students fm) in
  (match r with Some _ => true | None => false end, {| students := rest |}).

Definition find_student (fm : FinanceManager) (sid : string) : option Student :=
  dict_get sid (students fm).

(** [ttype in ("income", "expense")] *)
Definition valid_ttype (ty : string) : bool :=
  String.eqb ty "income" || String.eqb ty "expense".

(** [record_transaction]; [now] is what [datetime.now().strftime(DATE_FMT)]
    would return, and [dt = None] is the omitted [date] argument.  The student
    object is shared with the dictionary, so appending to its list is an
    update of the entry in place. *)
Definition record_transaction (now : string) (fm : FinanceManager)
    (sid ty : string) (amt : float) (descr : string) (dt : option string)
  : bool * FinanceManager :=
  match find_student fm sid with
  | None => (false, fm)
  | Some student =>
      if negb (valid_ttype ty) then (false, fm)
      else
        let d := match dt with None => now | Some d => d end in
        let tx := {| ttype := ty; amount := round2 amt;
                     description := descr; date := d |} in
        (true,
         {| students :=
              dict_set sid
                {| student_id := student_id student;
                   name := name student;
                   transactions := transactions student ++ [tx] |}
                (students fm) |})
  end.

(** ** Reports *)

Record Report : Type := {
  report_student_id : string;
  report_name : string;
  report_balance : float;
  report_transactions : list json
}.

Definition student_report (fm : FinanceManager) (sid : string) : option Report :=
  match find_student fm sid with
  | None => None
  | Some student =>
      Some {| report_student_id := student_id student;
              report_name := name student;
              report_balance := round2 (balance student);
              report_transactions :=
                map Transaction_to_dict (transactions student) |}
  end.

Record Summary : Type := {
  summary_student_id : string;
  summary_name : string;
  summary_balance : float;
  summary_num_transactions : nat
}.

Definition all_students_summary (fm : FinanceManager) : list Summary :=
  map (fun s =>
         {| summary_student_id := student_id s;
            summary_name := name s;
            summary_balance := round2 (balance s);
            summary_num_transactions := List.length (transactions s) |})
      (values (students fm)).

(** ** Persistence

    What a call can raise and what it prints. *)

Inductive exn : Type :=
| JSONDecodeError   (* the text is not JSON *)
| OSError           (* the file cannot be opened or read *)
| AttributeError    (* [.get] on a value that is not a dict *)
| TypeError         (* not iterable, not a mapping, wrong keyword arguments *)
| KeyError.         (* a subscript with a missing key *)

Inductive message : Type :=
| Saved (filename : string)          (* "Saved data to ..." *)
| Loaded (filename : string)         (* "Loaded data from ..." *)
| NoDataFile (filename : string)     (* "No data file found at ... Starting fresh." *)
| FailedToLoad (e : exn).            (* "Failed to load data: ..." *)

(** A file as [load] meets it. *)
Inductive file : Type :=
| NoFile                  (* [open] raises FileNotFoundError *)
| Unreadable              (* [open] or [read] raises another OSError *)
| NotJson                 (* [json.load] raises JSONDecodeError *)
| Document (data : json). (* [json.load] returns [data] *)

Definition filesys := string -> file.

Definition write_file (fs : filesys) (filename : string) (data : json) : filesys :=
  fun f => if String.eqb f filename then Document data else fs f.

(** The result of evaluating an expression that may raise.  [OutOfModel]
    marks a field value whose type is not the annotated one: Python would
    store it as it is, the typed records of this file cannot. *)
Inductive res (A : Type) : Type :=
| Ok (a : A)
| Raise (e : exn)
| OutOfModel.

Arguments Ok {A} a.
Arguments Raise {A} e.
Arguments OutOfModel {A}.

Definition bind {A B : Type} (c : res A) (k : A -> res B) : res B :=
  match c with
  | Ok a => k a
  | Raise e => Raise e
  | OutOfModel => OutOfModel
  end.

Notation "x <- c ;; k" := (bind c (fun x => k))
  (at level 61, c at next level, right associativity).

(** [[f(x) for x in xs]], stopping at the first exception *)
Fixpoint traverse {A B : Type} (f : A -> res B) (xs : list A) : res (list B) :=
  match xs with
  | [] => Ok []
  | x :: rest => y <- f x ;; ys <- traverse f rest ;; Ok (y :: ys)
  end.

(** [v.get(key, default)] *)
Definition py_get (v : json) (key : string) (default : json) : res json :=
  match v with
  | JDict d => Ok (match dict_get key d with Some x => x | None => default end)
  | _ => Raise AttributeError
  end.

(** [v[key]] with a string key *)
Definition py_getitem (v : json) (key : string) : res json :=
  match v with
  | JDict d => match dict_get key d with Some x => Ok x | None => Raise KeyError end
  | _ => Raise TypeError
  end.

(** The elements [for x in v] goes through: those of a list, the keys of a
    dict, the characters of a string; other values are not iterable. *)
Definition py_iter (v : json) : res (list json) :=
  match v with
  | JList l => Ok l
  | JDict d => Ok (map JStr (keys d))
  | JStr s => Ok (map (fun c => JStr (String c EmptyString)) (list_ascii_of_string s))
  | _ => Raise TypeError
  end.

Definition as_str (v : json) : res string :=
  match v with JStr s => Ok s | _ => OutOfModel end.

Definition as_float (v : json) : res float :=
  match v with JFloat x => Ok x | _ => OutOfModel end.

Definition Transaction_fields : list string :=
  ["ttype"; "amount"; "description"; "date"].

(** The call of [Transaction] with the members of [t] as keyword arguments:
    [t] must be a mapping whose keys are exactly the four field names; a
    missing or an unexpected keyword is a TypeError. *)
Definition Transaction_kwargs (t : json) : res Transaction :=
  match t with
  | JDict kw =>
      if forallb (fun k => existsb (String.eqb k) Transaction_fields) (keys kw)
         && forallb (fun f => dict_in f kw) Transaction_fields
      then
        ty <- bind (py_getitem t "ttype") as_str ;;
        am <- bind (py_getitem t "amount") as_float ;;
        de <- bind (py_getitem t "description") as_str ;;
        da <- bind (py_getitem t "date") as_str ;;
        Ok {| ttype := ty; amount := am; description := de; date := da |}
      else Raise TypeError
  | _ => Raise TypeError
  end.

(** The two statements that build a [Student] from an element [s] of the
    list, lines 116 and 117 of the source. *)
Definition Student_of (s : json) : res Student :=
  tl <- py_get s "transactions" (JList []) ;;
  ts <- py_iter tl ;;
  txs <- traverse Transaction_kwargs ts ;;
  sid <- bind (py_getitem s "student_id") as_str ;;
  nm <- bind (py_getitem s "name") as_str ;;
  Ok {| student_id := sid; name := nm; transactions := txs |}.

(** The [for] loop of [load]: [self.students] is updated student by student,
    and an exception leaves it as it is at that point. *)
Fixpoint load_loop (items : list json) (acc : dict Student)
  : res unit * dict Student :=
  match items with
  | [] => (Ok tt, acc)
  | s :: rest =>
      match Student_of s with
      | Ok student => load_loop rest (dict_set (student_id student) student acc)
      | Raise e => (Raise e, acc)
      | OutOfModel => (OutOfModel, acc)
      end
  end.

(** The statements of the [try] block that follow [json.load]. *)
Definition load_data (data : json) : res unit * dict Student :=
  let cleared : dict Student := [] in
  match bind (py_get data "students" (JList [])) py_iter with
  | Ok items => load_loop items cleared
  | Raise e => (Raise e, cleared)
  | OutOfModel => (OutOfModel, cleared)
  end.

(** [save]: the manager is not changed; the file is overwritten. *)
Definition save (fm : FinanceManager) (fs : filesys) (filename : string)
  : message * filesys :=
  let data := JDict [("students", JList (map Student_to_dict (values (students fm))))] in
  (Saved filename, write_file fs filename data).

Record loaded : Type := {
  returned : bool;
  printed : message;
  after : FinanceManager
}.

(** [load]; [None] when the file is outside the model. *)
Definition load (fm : FinanceManager) (fs : filesys) (filename : string)
  : option loaded :=
  match fs filename with
  | NoFile =>
      Some {| returned := false; printed := NoDataFile filename; after := fm |}
  | Unreadable =>
      Some {| returned := false; printed := FailedToLoad OSError; after := fm |}
  | NotJson =>
      Some {| returned := false; printed := FailedToLoad JSONDecodeError; after := fm |}
  | Document data =>
      match load_data data with
      | (Ok _, d) =>
          Some {| returned := true; printed := Loaded filename;
                  after := {| students := d |} |}
      | (Raise e, d) =>
          Some {| returned := false; printed := FailedToLoad e;
                  after := {| students := d |} |}
      | (OutOfModel, _) => None
      end
  end.

(** ** Runs of the program

    The operations the menu offers, and the states they lead to from a new
    manager.  Files belong to the environment: each step may meet any file
    system. *)

Inductive command : Type :=
| AddStudent (sid nm : string)
| RemoveStudent (sid : string)
| RecordTransaction (now sid ty : string) (amt : float) (descr : string)
                    (dt : option string)
| Save (filename : string)
| Load (filename : string).

Definition exec (c : command) (st : FinanceManager * filesys)
  : option (FinanceManager * filesys) :=
  let (fm, fs) := st in
  match c with
  | AddStudent sid nm => Some (snd (add_student fm sid nm), fs)
  | RemoveStudent sid => Some (snd (remove_student fm sid), fs)
  | RecordTransaction now sid ty amt descr dt =>
      Some (snd (record_transaction now fm sid ty amt descr dt), fs)
  | Save filename => Some (fm, snd (save fm fs filename))
  | Load filename =>
      match load fm fs filename with
      | Some r => Some (after r, fs)
      | None => None
      end
  end.

Inductive reachable : FinanceManager -> Prop :=
| reach_init : reachable init
| reach_exec c fm fs fm' fs' :
    reachable fm -> exec c (fm, fs) = Some (fm', fs') -> reachable fm'.

(** The invariant of the data model: no key twice (it is a dictionary), and
    every key is the [student_id] of its value. *)
Definition keys_match (d : dict Student) : Prop :=
  Forall (fun e => fst e = student_id (snd e)) d.

Definition ledger_ok (fm : FinanceManager) : Prop :=
  NoDup (keys (students fm)) /\ keys_match (students fm).

(** ** Values and notions used in the statements *)

Definition new_student (sid nm : string) : Student :=
  {| student_id := sid; name := nm; transactions := [] |}.

(** Concrete ledgers used in the examples below. *)
Definition alice : Student := new_student "S1" "Alice".
Definition bob : Student := new_student "S2" "Bob".
Definition ledger_alice : FinanceManager := {| students := [("S1", alice)] |}.
Definition ledger_two : FinanceManager :=
  {| students := [("S1", alice); ("S2", bob)] |}.
Definition no_files : filesys := fun _ => NoFile.

(** The transaction a successful call stores. *)
Definition recorded (now ty : string) (amt : float) (descr : string)
    (dt : option string) : Transaction :=
  {| ttype := ty; amount := round2 amt; description := descr;
     date := match dt with None => now | Some d => d end |}.

(** The student after one more transaction. *)
Definition with_transaction (s : Student) (t : Transaction) : Student :=
  {| student_id := student_id s; name := name s;
     transactions := transactions s ++ [t] |}.

(** A sequence of calls of [record_transaction] for one student. *)
Record call : Type := {
  call_ttype : string;
  call_amount : float;
  call_description : string;
  call_date : option string
}.

(** The calls are made in order; the result tells whether all of them
    returned true. *)
Fixpoint record_all (now : string) (fm : FinanceManager) (sid : string)
    (calls : list call) : bool * FinanceManager :=
  match calls with
  | [] => (true, fm)
  | c :: rest =>
      let (r, fm1) :=
        record_transaction now fm sid (call_ttype c) (call_amount c)
          (call_description c) (call_date c) in
      let (rs, fm2) := record_all now fm1 sid rest in
      (r && rs, fm2)
  end.

(** What a call does to the balance: the amount is rounded when it is
    stored, and the stored amount is added or subtracted. *)
Definition call_step (bal : float) (c : call) : float :=
  if String.eqb (call_ttype c) "income"
  then PrimFloat.add bal (round2 (call_amount c))
  else PrimFloat.sub bal (round2 (call_amount c)).

(** The balance as the specification words it: the sum of the income amounts
    minus the sum of the expense amounts, rounded to two decimals. *)
Definition float_sum (xs : list float) : float :=
  fold_left PrimFloat.add xs 0%float.

Definition spec_balance (incomes expenses : list float) : float :=
  round2 (PrimFloat.sub (float_sum incomes) (float_sum expenses)).

(** Three incomes of 1/256 each, below half a hundredth. *)
Definition small_income : call :=
  {| call_ttype := "income"; call_amount := 0.00390625;
     call_description := "Coin"; call_date := Some "2024-01-10" |}.

Definition three_small : list call := [small_income; small_income; small_income].

Definition empty_object_file : filesys :=
  fun f => if String.eqb f "students_finance.json" then Document (JDict [])
           else NoFile.

Definition bare_student_file : filesys :=
  fun f =>
    if String.eqb f "students_finance.json"
    then Document (JDict [("students",
                           JList [JDict [("student_id", JStr "S1");
                                         ("name", JStr "Alice")]])])
    else NoFile.

(** The dictionary after the students [sts] were stored one by one. *)
Definition insert_all (sts : list Student) (acc : dict Student) : dict Student :=
  fold_left (fun a s => dict_set (student_id s) s a) sts acc.

(** A file whose second student has no "student_id". *)
Definition half_bad_document : json :=
  JDict [("students",
          JList [Student_to_dict bob; JDict [("name", JStr "Eve")]])].

Definition half_bad_file : filesys :=
  fun f => if String.eqb f "students_finance.json"
           then Document half_bad_document else NoFile.

Definition not_json_file : filesys :=
  fun f => if String.eqb f "broken.json" then NotJson else NoFile.

Definition twice_alice_document : json :=
  JDict [("students",
          JList [Student_to_dict alice; Student_to_dict bob;
                 Student_to_dict (new_student "S1" "Alicia")])].

(** The document [save] writes for a ledger. *)
Definition saved_document (fm : FinanceManager) : json :=
  JDict [("students", JList (map Student_to_dict (values (students fm))))].

(** ** The command-line shell

    [run_cli] talks to a terminal.  The lines typed are a list of strings;
    [input] takes the next one and raises EOFError when there is none.  What
    is printed is a list of [output]s: the literal lines and prompts are
    kept as text, and a report or a summary is kept as the data its lines are
    formatted from.  Three library functions are parameters: [str.strip],
    [float] on a string ([None] is ValueError) and the success of
    [datetime.strptime] with [DATE_FMT]. *)

Definition DATA_FILE : string := "students_finance.json".

Inductive output : Type :=
| Text (s : string)               (* a literal line, or the prompt of [input] *)
| Said (m : message)              (* the line [save] or [load] prints *)
| ShowReport (r : Report)         (* the lines of choice 5 *)
| ShowSummary (l : list Summary). (* the lines of choice 6 *)

Inductive io_result (A : Type) : Type :=
| Ret (a : A) (rest : list string) (out : list output)
| EOFError (out : list output)    (* [input] met the end of the input *)
| NoModel.                        (* [load] met a file outside the model *)

Arguments Ret {A} a rest out.
Arguments EOFError {A} out.
Arguments NoModel {A}.

Definition io (A : Type) : Type := list string -> io_result A.

Definition io_ret {A : Type} (a : A) : io A := fun stdin => Ret a stdin [].

Definition io_bind {A B : Type} (c : io A) (k : A -> io B) : io B :=
  fun stdin =>
    match c stdin with
    | Ret a rest out =>
        match k a rest with
        | Ret b rest' out' => Ret b rest' (out ++ out')
        | EOFError out' => EOFError (out ++ out')
        | NoModel => NoModel
        end
    | EOFError out => EOFError out
    | NoModel => NoModel
    end.

Notation "x <~ c ;; k" := (io_bind c (fun x => k))
  (at level 61, c at next level, right associativity).

Definition print (o : output) : io unit := fun stdin => Ret tt stdin [o].

Definition print_text (s : string) : io unit := print (Text s).

(** [input(prompt)] *)
Definition input (prompt : string) : io string :=
  fun stdin =>
    match stdin with
    | [] => EOFError [Text prompt]
    | line :: rest => Ret line rest [Text prompt]
    end.

(** The lines [main_menu] prints; the first [print] starts with a newline. *)
Definition main_menu : list output :=
  [Text ""; Text "=== Student Finance Manager ===";
   Text "1. Add student"; Text "2. Remove student"; Text "3. Record income";
   Text "4. Record expense"; Text "5. Show student report";
   Text "6. List all students (summary)"; Text "7. Save data";
   Text "8. Load data"; Text "9. Exit";
   Text "==============================="].

Definition print_menu : io unit := fun stdin => Ret tt stdin main_menu.

Inductive control : Type := Continue | Break.

Definition session : Type := (FinanceManager * filesys)%type.

Section Cli.
Variable strip : string -> string.
Variable parse_float : string -> option float.
Variable valid_date : string -> bool.

(** [input_nonempty]: asks again until the line, stripped, is not empty. *)
Fixpoint input_nonempty (prompt : string) (stdin : list string)
  : io_result string :=
  match stdin with
  | [] => EOFError [Text prompt]
  | line :: rest =>
      let s := strip line in
      if String.eqb s "" then
        match input_nonempty prompt rest with
        | Ret a rest' out =>
            Ret a rest'
              (Text prompt :: Text "Please enter a non-empty value." :: out)
        | EOFError out =>
            EOFError
              (Text prompt :: Text "Please enter a non-empty value." :: out)
        | NoModel => NoModel
        end
      else Ret s rest [Text prompt]
  end.

(** Choice 1 *)
Definition choice_add (st : session) : io (control * session) :=
  sid <~ input_nonempty "Student ID (unique): " ;;
  nm <~ input_nonempty "Student name: " ;;
  let (ok, fm') := add_student (fst st) sid nm in
  _ <~ print_text (if ok then "Student added."
                   else "Student ID already exists.") ;;
  io_ret (Continue, (fm', snd st)).

(** Choice 2 *)
Definition choice_remove (st : session) : io (control * session) :=
  sid <~ input_nonempty "Student ID to remove: " ;;
  let (ok, fm') := remove_student (fst st) sid in
  _ <~ print_text (if ok then "Student removed." else "Student not found.") ;;
  io_ret (Continue, (fm', snd st)).

(** The date asked for in choices 3 and 4: [None] when the line is empty,
    today's date when it is not a date. *)
Definition ask_date (now : string) : io (option string) :=
  line <~ input "Date (YYYY-MM-DD) [leave empty for today]: " ;;
  let date_input := strip line in
  if String.eqb date_input "" then io_ret None
  else if valid_date date_input then io_ret (Some date_input)
  else
    _ <~ print_text "Invalid date format; using today's date." ;;
    io_ret (Some now).

(** Choices 3 ([income = true]) and 4 *)
Definition choice_record (income : bool) (now : string) (st : session)
  : io (control * session) :=
  sid <~ input_nonempty "Student ID: " ;;
  match find_student (fst st) sid with
  | None =>
      _ <~ print_text "Student not found." ;;
      io_ret (Continue, st)
  | Some _ =>
      amount_str <~ input_nonempty "Amount: " ;;
      match parse_float amount_str with
      | None =>
          _ <~ print_text "Invalid amount. Use numbers like 1500.50" ;;
          io_ret (Continue, st)
      | Some amt =>
          line <~ input "Description (optional): " ;;
          let desc :=
            if String.eqb (strip line) ""
            then (if income then "Income" else "Expense")
            else strip line in
          dt <~ ask_date now ;;
          let ty := if income then "income" else "expense" in
          let (ok, fm') :=
            record_transaction now (fst st) sid ty amt desc dt in
          _ <~ print_text
                 (if ok
                  then (if income then "Income recorded."
                        else "Expense recorded.")
                  else "Failed to record transaction.") ;;
          io_ret (Continue, (fm', snd st))
      end
  end.

(** Choice 5 *)
Definition choice_report (st : session) : io (control * session) :=
  sid <~ input_nonempty "Student ID: " ;;
  match student_report (fst st) sid with
  | None =>
      _ <~ print_text "Student not found." ;;
      io_ret (Continue, st)
  | Some report =>
      _ <~ print (ShowReport report) ;;
      io_ret (Continue, st)
  end.

(** Choice 6 *)
Definition choice_summary (st : session) : io (control * session) :=
  match all_students_summary (fst st) with
  | [] =>
      _ <~ print_text "No students." ;;
      io_ret (Continue, st)
  | summary =>
      _ <~ print (ShowSummary summary) ;;
      io_ret (Continue, st)
  end.

(** [fm.save()] *)
Definition call_save (st : session) : io session :=
  let (m, fs') := save (fst st) (snd st) DATA_FILE in
  _ <~ print (Said m) ;;
  io_ret (fst st, fs').

(** [fm.load()] *)
Definition call_load (st : session) : io session :=
  fun stdin =>
    match load (fst st) (snd st) DATA_FILE with
    | Some r => Ret (after r, snd st) stdin [Said (printed r)]
    | None => NoModel
    end.

(** Choice 9 *)
Definition choice_exit (st : session) : io (control * session) :=
  _ <~ print_text "Saving before exit..." ;;
  st' <~ call_save st ;;
  _ <~ print_text "Goodbye." ;;
  io_ret (Break, st').

(** The [if] chain on the choice typed. *)
Definition dispatch (choice now : string) (st : session)
  : io (control * session) :=
  if String.eqb choice "1" then choice_add st
  else if String.eqb choice "2" then choice_remove st
  else if String.eqb choice "3" || String.eqb choice "4"
       then choice_record (String.eqb choice "3") now st
  else if String.eqb choice "5" then choice_report st
  else if String.eqb choice "6" then choice_summary st
  else if String.eqb choice "7"
       then st' <~ call_save st ;; io_ret (Continue, st')
  else if String.eqb choice "8"
       then st' <~ call_load st ;; io_ret (Continue, st')
  else if String.eqb choice "9" then choice_exit st
  else
    _ <~ print_text "Invalid choice. Pick 1-9." ;;
    io_ret (Continue, st).

(** One turn of the [while] loop of [run_cli]. *)
Definition iteration (now : string) (st : session) : io (control * session) :=
  _ <~ print_menu ;;
  line <~ input "Enter choice: " ;;
  dispatch (strip line) now st.

(** How a run of the program ends. *)
Inductive ending : Type :=
| Exited (st : session) (rest : list string) (out : list output)
    (* choice 9: [break], then the program returns *)
| Crashed (st : session) (out : list output)
    (* EOFError leaves [run_cli]; [st] is the session at that point *)
| Unmodelled
| OutOfFuel.

Definition after_output (out : list output) (e : ending) : ending :=
  match e with
  | Exited st rest out' => Exited st rest (out ++ out')
  | Crashed st out' => Crashed st (out ++ out')
  | Unmodelled => Unmodelled
  | OutOfFuel => OutOfFuel
  end.

(** The [while True] loop; [clock i] is today's date during turn [i].  Every
    branch reads its lines before it changes anything, so when EOFError is
    raised the session is the one the turn started with. *)
Fixpoint cli_loop (fuel : nat) (clock : nat -> string) (i : nat)
    (st : session) (stdin : list string) : ending :=
  match fuel with
  | O => OutOfFuel
  | S fuel' =>
      match iteration (clock i) st stdin with
      | Ret (Break, st') rest out => Exited st' rest out
      | Ret (Continue, st') rest out =>
          after_output out (cli_loop fuel' clock (S i) st' rest)
      | EOFError out => Crashed st out
      | NoModel => Unmodelled
      end
  end.

(** [run_cli]: a new manager, [fm.load()], then the loop.  Each turn reads at
    least one line, so one more turn than there are lines is enough. *)
Definition run_cli (clock : nat -> string) (fs : filesys)
    (stdin : list string) : ending :=
  match call_load (init, fs) stdin with
  | Ret st rest out =>
      after_output out (cli_loop (S (List.length rest)) clock 0 st rest)
  | EOFError out => Crashed (init, fs) out
  | NoModel => Unmodelled
  end.
End Cli.

(** ** Notions used in the statements about the shell *)

(** What a command does on every input: it never gives lines back, its
    result satisfies [P], and every output satisfies [O], also when it ends
    in EOFError. *)
Definition io_spec {A : Type} (c : io A) (P : A -> Prop) (O : output -> Prop)
  : Prop :=
  forall stdin,
    match c stdin with
    | Ret a rest out =>
        List.length rest <= List.length stdin /\ P a /\ Forall O out
    | EOFError out => Forall O out
    | NoModel => True
    end.

Definition not_failed (o : output) : Prop :=
  o <> Text "Failed to record transaction.".

(** What one turn of the loop keeps. *)
Definition turn_post (st : session) (r : control * session) : Prop :=
  (reachable (fst st) -> reachable (fst (snd r)))
  /\ (forall g, g <> DATA_FILE -> snd (snd r) g = snd st g)
  /\ (fst r = Break ->
      snd (snd r) DATA_FILE = Document (saved_document (fst (snd r)))).

(** What holds when a run that started with the files [fs0] ends. *)
Definition ending_ok (fs0 : filesys) (e : ending) : Prop :=
  match e with
  | Exited st rest out =>
      reachable (fst st)
      /\ (forall g, g <> DATA_FILE -> snd st g = fs0 g)
      /\ snd st DATA_FILE = Document (saved_document (fst st))
      /\ Forall not_failed out
  | Crashed st out =>
      reachable (fst st)
      /\ (forall g, g <> DATA_FILE -> snd st g = fs0 g)
      /\ Forall not_failed out
  | Unmodelled => True
  | OutOfFuel => False
  end.

(** A [strip] for the examples: one leading space is removed. *)
Definition strip_one (s : string) : string :=
  match s with
  | String (Ascii.Ascii false false false false false true false false) rest => rest
  | _ => s
  end.

(** A short session for the examples: add Alice, then exit. *)
Definition demo_clock : nat -> string := fun _ => "2024-02-01".

Definition demo_run : ending :=
  run_cli strip_one (fun _ => None) (fun _ => false) demo_clock no_files
    ["1"; " S1"; "Alice"; "9"].

(** * Properties *)

(** ** Dictionaries *)

Lemma nodup_snoc (A : Type) (x : A) (l : list A) :
  NoDup l -> ~ In x l -> NoDup (l ++ [x]).
Proof.
  induction l as [|y l IH]; simpl; intros Hnd Hnotin.
  - constructor; [tauto | constructor].
  - inversion Hnd as [|? ? Hy Hl]; subst. constructor.
    + rewrite in_app_iff. simpl. intros [I|[E|[]]]; [tauto | subst; tauto].
    + apply IH; tauto.
Qed.

Section DictFacts.
Variable V : Type.
Implicit Types (d : dict V) (k : string) (v : V).

Lemma dict_get_none k d : dict_get k d = None <-> ~ In k (keys d).
Proof.
  induction d as [|[k' v'] d IH]; simpl.
  - tauto.
  - destruct (String.eqb_spec k k') as [->|Hne].
    + split; [discriminate | intros H; exfalso; apply H; now left].
    + rewrite IH. split.
      * intros H [E|I]; [now apply Hne | now apply H].
      * intros H I. apply H. now right.
Qed.

Lemma dict_in_false k d : dict_in k d = false <-> dict_get k d = None.
Proof. unfold dict_in. destruct (dict_get k d); split; congruence. Qed.

Lemma dict_set_absent k v d :
  dict_get k d = None -> dict_set k v d = d ++ [(k, v)].
Proof.
  induction d as [|[k' v'] d IH]; simpl; [reflexivity|].
  destruct (String.eqb k k'); [discriminate|].
  intros H. now rewrite IH.
Qed.

Lemma dict_set_present k v d :
  dict_get k d <> None -> keys (dict_set k v d) = keys d.
Proof.
  induction d as [|[k' v'] d IH]; simpl; [congruence|].
  destruct (String.eqb k k'); simpl; [reflexivity|].
  intros H. now rewrite IH.
Qed.

Lemma dict_get_set_same k v d : dict_get k (dict_set k v d) = Some v.
Proof.
  induction d as [|[k' v'] d IH]; simpl.
  - now rewrite String.eqb_refl.
  - destruct (String.eqb k k') eqn:E; simpl; now rewrite E.
Qed.

Lemma dict_get_set_other k k' v d :
  k' <> k -> dict_get k' (dict_set k v d) = dict_get k' d.
Proof.
  intros Hne. induction d as [|[k0 v0] d IH]; simpl.
  - apply String.eqb_neq in Hne. now rewrite Hne.
  - destruct (String.eqb_spec k k0) as [->|Hk]; simpl.
    + apply String.eqb_neq in Hne. now rewrite Hne.
    + now rewrite IH.
Qed.

Lemma dict_set_nodup k v d : NoDup (keys d) -> NoDup (keys (dict_set k v d)).
Proof.
  intros H. destruct (dict_get k d) eqn:E.
  - rewrite dict_set_present; [assumption | congruence].
  - rewrite dict_set_absent by assumption.
    unfold keys. rewrite map_app. simpl.
    apply nodup_snoc; [exact H | now apply dict_get_none].
Qed.

Lemma dict_pop_fst k d : fst (dict_pop k d) = dict_get k d.
Proof.
  induction d as [|[k' v'] d IH]; simpl; [reflexivity|].
  destruct (String.eqb k k'); [reflexivity|].
  destruct (dict_pop k d). exact IH.
Qed.

(** What is left after a pop: the entries under the other keys. *)
Lemma dict_pop_snd k d :
  NoDup (keys d) ->
  snd (dict_pop k d) = filter (fun e => negb (String.eqb k (fst e))) d.
Proof.
  induction d as [|[k' v'] d IH]; simpl; [reflexivity|].
  intros H. inversion H as [|? ? Hnotin Hnd]; subst.
  destruct (String.eqb_spec k k') as [->|Hne]; simpl.
  - symmetry. apply forallb_filter_id. apply forallb_forall.
    intros [k0 v0] Hin. simpl.
    destruct (String.eqb_spec k' k0) as [->|]; [|reflexivity].
    exfalso. apply Hnotin. change k0 with (fst (k0, v0)). now apply in_map.
  - specialize (IH Hnd). destruct (dict_pop k d). simpl in *. now rewrite IH.
Qed.

Lemma dict_get_filter_out k d :
  dict_get k (filter (fun e => negb (String.eqb k (fst e))) d) = None.
Proof.
  induction d as [|[k' v'] d IH]; simpl; [reflexivity|].
  destruct (String.eqb k k') eqn:E; simpl; [assumption|].
  now rewrite E.
Qed.

Lemma filter_keys_nodup (f : string * V -> bool) d :
  NoDup (keys d) -> NoDup (keys (filter f d)).
Proof.
  induction d as [|e d IH]; simpl; [trivial|].
  intros H. inversion H as [|? ? Hnotin Hnd]; subst.
  destruct (f e); simpl; [|now apply IH].
  constructor; [|now apply IH].
  intros Hin. apply Hnotin. unfold keys in *.
  apply in_map_iff in Hin. destruct Hin as [x [Hx Hf]].
  apply filter_In in Hf. apply in_map_iff. exists x. tauto.
Qed.
End DictFacts.

Lemma dict_get_some_in (V : Type) (k : string) (v : V) (d : dict V) :
  dict_get k d = Some v -> In (k, v) d.
Proof.
  induction d as [|[k' v'] d IH]; simpl; [discriminate|].
  destruct (String.eqb_spec k k') as [->|Hne].
  - intros [= ->]. now left.
  - intros H. right. now apply IH.
Qed.

(** ** The invariant is kept by every operation *)

Lemma keys_match_set (k : string) (s : Student) (d : dict Student) :
  keys_match d -> k = student_id s -> keys_match (dict_set k s d).
Proof.
  unfold keys_match. intros Hd Hk.
  induction d as [|[k' s'] d IH]; simpl.
  - constructor; [exact Hk | constructor].
  - inversion Hd as [|? ? He Hrest]; subst k.
    destruct (String.eqb_spec (student_id s) k') as [E|Hne].
    + constructor; [simpl; now symmetry | assumption].
    + constructor; [assumption | now apply IH].
Qed.

Lemma keys_match_get (k : string) (s : Student) (d : dict Student) :
  keys_match d -> dict_get k d = Some s -> k = student_id s.
Proof.
  intros Hd Hget. apply dict_get_some_in in Hget.
  unfold keys_match in Hd. rewrite Forall_forall in Hd.
  exact (Hd _ Hget).
Qed.

Lemma ledger_ok_set (fm : FinanceManager) (s : Student) :
  ledger_ok fm ->
  ledger_ok {| students := dict_set (student_id s) s (students fm) |}.
Proof.
  intros [Hnd Hkm]. split; simpl.
  - now apply dict_set_nodup.
  - now apply keys_match_set.
Qed.

Lemma add_student_ok (fm : FinanceManager) (sid nm : string) :
  ledger_ok fm -> ledger_ok (snd (add_student fm sid nm)).
Proof.
  intros H. unfold add_student. destruct (dict_in sid (students fm)); simpl.
  - exact H.
  - exact (ledger_ok_set fm {| student_id := sid; name := nm; transactions := [] |} H).
Qed.

Lemma remove_student_students (fm : FinanceManager) (sid : string) :
  NoDup (keys (students fm)) ->
  students (snd (remove_student fm sid))
  = filter (fun e => negb (String.eqb sid (fst e))) (students fm).
Proof.
  intros H. unfold remove_student.
  pose proof (dict_pop_snd Student sid (students fm) H) as E.
  destruct (dict_pop sid (students fm)). exact E.
Qed.

Lemma remove_student_ok (fm : FinanceManager) (sid : string) :
  ledger_ok fm -> ledger_ok (snd (remove_student fm sid)).
Proof.
  intros [Hnd Hkm]. unfold ledger_ok.
  rewrite (remove_student_students fm sid Hnd). split.
  - now apply filter_keys_nodup.
  - unfold keys_match in *. rewrite Forall_forall in *.
    intros e He. apply filter_In in He. now apply Hkm.
Qed.

Lemma record_transaction_ok now fm sid ty amt descr dt :
  ledger_ok fm -> ledger_ok (snd (record_transaction now fm sid ty amt descr dt)).
Proof.
  intros H. unfold record_transaction, find_student.
  destruct (dict_get sid (students fm)) as [student|] eqn:E; [|exact H].
  destruct (negb (valid_ttype ty)); [exact H|]. simpl.
  destruct H as [Hnd Hkm]. split; simpl.
  - now apply dict_set_nodup.
  - apply keys_match_set; [assumption|]. simpl.
    now apply keys_match_get with (d := students fm).
Qed.

Lemma load_loop_ok (items : list json) (acc : dict Student) :
  ledger_ok {| students := acc |} ->
  ledger_ok {| students := snd (load_loop items acc) |}.
Proof.
  revert acc. induction items as [|s items IH]; simpl; intros acc H.
  - exact H.
  - destruct (Student_of s) as [student| |]; simpl; try exact H.
    apply IH. exact (ledger_ok_set {| students := acc |} student H).
Qed.

Lemma load_data_ok (data : json) :
  ledger_ok {| students := snd (load_data data) |}.
Proof.
  assert (H0 : ledger_ok {| students := [] |})
    by (split; simpl; constructor).
  unfold load_data.
  destruct (bind (py_get data "students" (JList [])) py_iter); simpl;
    try exact H0.
  now apply load_loop_ok.
Qed.

Lemma load_ok fm fs filename r :
  ledger_ok fm -> load fm fs filename = Some r -> ledger_ok (after r).
Proof.
  intros H. unfold load.
  destruct (fs filename) as [| | |data];
    try (intros [= <-]; exact H).
  pose proof (load_data_ok data) as Hd.
  destruct (load_data data) as [[u|e|] d]; simpl in Hd;
    [intros [= <-]; exact Hd | intros [= <-]; exact Hd | discriminate].
Qed.

Lemma exec_ok c fm fs fm' fs' :
  ledger_ok fm -> exec c (fm, fs) = Some (fm', fs') -> ledger_ok fm'.
Proof.
  intros H. destruct c; simpl.
  - intros [= <- _]. now apply add_student_ok.
  - intros [= <- _]. now apply remove_student_ok.
  - intros [= <- _]. now apply record_transaction_ok.
  - intros [= <- _]. exact H.
  - destruct (load fm fs filename) as [r|] eqn:E; [|discriminate].
    intros [= <- _]. exact (load_ok fm fs filename r H E).
Qed.

Lemma reachable_ok (fm : FinanceManager) : reachable fm -> ledger_ok fm.
Proof.
  induction 1 as [|c fm fs fm' fs' _ IH Hexec].
  - split; simpl; constructor.
  - exact (exec_ok c fm fs fm' fs' IH Hexec).
Qed.

(** ** Students *)

(** C6: [add_student] on an id that is already present returns false and
    leaves the manager as it is, so the student found under that id, its name
    and its transactions are the same as before; on a new id it returns true
    and the dictionary gets one more entry, last, holding a student with
    that id, that name and no transaction, while every other lookup is
    unchanged. *)
Theorem add_student_spec (fm : FinanceManager) (sid nm : string) :
  (forall s, find_student fm sid = Some s ->
     add_student fm sid nm = (false, fm)) /\
  (find_student fm sid = None ->
     add_student fm sid nm
     = (true, {| students := students fm ++ [(sid, new_student sid nm)] |})
     /\ find_student (snd (add_student fm sid nm)) sid
        = Some (new_student sid nm)
     /\ forall k, k <> sid ->
          find_student (snd (add_student fm sid nm)) k = find_student fm k).
Proof.
  unfold add_student, find_student, dict_in. split.
  - intros s Hs. now rewrite Hs.
  - intros Hnone. rewrite Hnone. simpl. repeat split.
    + now rewrite dict_set_absent.
    + apply dict_get_set_same.
    + intros k Hk. now apply dict_get_set_other.
Qed.

Lemma add_student_spec_example :
  add_student ledger_alice "S1" "Alicia" = (false, ledger_alice)
  /\ add_student ledger_alice "S2" "Bob" = (true, ledger_two).
Proof.
  split.
  - apply (proj1 (add_student_spec ledger_alice "S1" "Alicia") alice).
    reflexivity.
  - apply (proj2 (add_student_spec ledger_alice "S2" "Bob")).
    reflexivity.
Defined.

(** C7: in every reachable ledger, [remove_student] returns true exactly
    when a student was found under the id before the call; after such a call
    [find_student] finds nothing under the id, and the dictionary is the old
    one without that entry: what is left are the entries under other keys,
    none of which is a student with the removed id. *)
Theorem remove_student_spec (fm : FinanceManager) (sid : string) :
  reachable fm ->
  (fst (remove_student fm sid) = true <-> find_student fm sid <> None)
  /\ (fst (remove_student fm sid) = true ->
      find_student (snd (remove_student fm sid)) sid = None
      /\ students (snd (remove_student fm sid))
         = filter (fun e => negb (String.eqb sid (fst e))) (students fm)
      /\ forall e, In e (students (snd (remove_student fm sid))) ->
           fst e <> sid /\ student_id (snd e) <> sid).
Proof.
  intros Hreach. destruct (reachable_ok fm Hreach) as [Hnd Hkm]. split.
  - unfold remove_student, find_student.
    pose proof (dict_pop_fst Student sid (students fm)) as E.
    destruct (dict_pop sid (students fm)) as [r rest]. simpl in *.
    rewrite <- E. destruct r; split; congruence.
  - intros _. unfold find_student.
    rewrite (remove_student_students fm sid Hnd). split; [|split].
    + apply dict_get_filter_out.
    + reflexivity.
    + intros e He. apply filter_In in He. destruct He as [Hin Hf].
      assert (Hne : fst e <> sid).
      { intros E. rewrite E, String.eqb_refl in Hf. discriminate. }
      split; [exact Hne|].
      unfold keys_match in Hkm. rewrite Forall_forall in Hkm.
      rewrite <- (Hkm e Hin). exact Hne.
Qed.

Lemma ledger_two_reachable : reachable ledger_two.
Proof.
  apply (reach_exec (AddStudent "S2" "Bob") ledger_alice no_files ledger_two no_files).
  - apply (reach_exec (AddStudent "S1" "Alice") init no_files ledger_alice no_files).
    + apply reach_init.
    + reflexivity.
  - reflexivity.
Defined.

Lemma remove_student_spec_example :
  reachable ledger_two
  /\ fst (remove_student ledger_two "S1") = true
  /\ find_student (snd (remove_student ledger_two "S1")) "S1" = None.
Proof.
  split; [exact ledger_two_reachable|]. split; [reflexivity|].
  apply (proj2 (remove_student_spec ledger_two "S1" ledger_two_reachable)).
  reflexivity.
Defined.

(** C8: in every ledger reached from a new manager by [add_student],
    [remove_student], [record_transaction], [save] and [load], in any order
    and whatever the files hold, every key of the dictionary is the
    [student_id] of the student stored under it. *)
Theorem keys_are_student_ids (fm : FinanceManager) :
  reachable fm ->
  forall k s, In (k, s) (students fm) -> k = student_id s.
Proof.
  intros Hreach k s Hin. destruct (reachable_ok fm Hreach) as [_ Hkm].
  unfold keys_match in Hkm. rewrite Forall_forall in Hkm.
  exact (Hkm (k, s) Hin).
Qed.

Lemma keys_are_student_ids_example :
  reachable ledger_two
  /\ forall k s, In (k, s) (students ledger_two) -> k = student_id s.
Proof.
  split; [exact ledger_two_reachable|].
  exact (keys_are_student_ids ledger_two ledger_two_reachable).
Defined.

(** ** Transactions *)

Lemma valid_ttype_false (ty : string) :
  ty <> "income" -> ty <> "expense" -> valid_ttype ty = false.
Proof.
  intros Hi He. unfold valid_ttype.
  apply String.eqb_neq in Hi. apply String.eqb_neq in He.
  now rewrite Hi, He.
Qed.

Lemma record_transaction_found now fm sid ty amt descr dt student :
  find_student fm sid = Some student ->
  valid_ttype ty = true ->
  record_transaction now fm sid ty amt descr dt
  = (true,
     {| students :=
          dict_set sid
            (with_transaction student (recorded now ty amt descr dt))
            (students fm) |}).
Proof.
  intros Hfind Hty. unfold record_transaction.
  now rewrite Hfind, Hty.
Qed.

(** C5: [record_transaction] returns false and leaves the manager as it is
    (so no student is created) when no student is found under the id, and
    also when the type is neither "income" nor "expense".  Otherwise it
    returns true; the student under that id has the same id and name and its
    old transactions followed by exactly one new one, whose amount is
    [round2] of the amount given; the keys of the dictionary and every
    other student are unchanged; and the report of the student lists the
    transactions with the amounts as stored, the new one last. *)
Theorem record_transaction_spec (now : string) (fm : FinanceManager)
    (sid ty : string) (amt : float) (descr : string) (dt : option string) :
  (find_student fm sid = None ->
     record_transaction now fm sid ty amt descr dt = (false, fm))
  /\ (ty <> "income" -> ty <> "expense" ->
     record_transaction now fm sid ty amt descr dt = (false, fm))
  /\ (forall student,
        find_student fm sid = Some student ->
        ty = "income" \/ ty = "expense" ->
        let tx := recorded now ty amt descr dt in
        let fm' := snd (record_transaction now fm sid ty amt descr dt) in
        fst (record_transaction now fm sid ty amt descr dt) = true
        /\ amount tx = round2 amt
        /\ find_student fm' sid = Some (with_transaction student tx)
        /\ keys (students fm') = keys (students fm)
        /\ (forall k, k <> sid -> find_student fm' k = find_student fm k)
        /\ option_map report_transactions (student_report fm' sid)
           = Some (map Transaction_to_dict (transactions student)
                   ++ [Transaction_to_dict tx])).
Proof.
  split; [|split].
  - intros Hnone. unfold record_transaction. now rewrite Hnone.
  - intros Hi He. unfold record_transaction.
    rewrite (valid_ttype_false ty Hi He).
    now destruct (find_student fm sid).
  - intros student Hfind Hty tx fm'.
    assert (Hvalid : valid_ttype ty = true)
      by (destruct Hty as [-> | ->]; reflexivity).
    subst fm'.
    rewrite (record_transaction_found now fm sid ty amt descr dt student Hfind Hvalid).
    simpl. unfold find_student in *. simpl.
    split; [reflexivity|]. split; [reflexivity|].
    split; [apply dict_get_set_same|].
    split; [apply dict_set_present; congruence|].
    split; [intros k Hk; now apply dict_get_set_other|].
    unfold student_report, find_student. simpl.
    rewrite dict_get_set_same. simpl.
    now rewrite map_app.
Qed.

Lemma record_transaction_spec_example :
  record_transaction "2024-02-01" ledger_alice "S9" "income" 10 "Gift" None
  = (false, ledger_alice)
  /\ record_transaction "2024-02-01" ledger_alice "S1" "refund" 10 "Gift" None
     = (false, ledger_alice)
  /\ find_student
       (snd (record_transaction "2024-02-01" ledger_alice "S1" "expense"
               200 "Books" (Some "2024-01-15"))) "S1"
     = Some (with_transaction alice
               (recorded "2024-02-01" "expense" 200 "Books" (Some "2024-01-15"))).
Proof.
  split; [|split].
  - apply (proj1 (record_transaction_spec "2024-02-01" ledger_alice
                    "S9" "income" 10 "Gift" None)).
    reflexivity.
  - apply (proj1 (proj2 (record_transaction_spec "2024-02-01" ledger_alice
                           "S1" "refund" 10 "Gift" None)));
      intros H; discriminate H.
  - apply (proj2 (proj2 (record_transaction_spec "2024-02-01" ledger_alice
                           "S1" "expense" 200 "Books" (Some "2024-01-15")))
             alice).
    + reflexivity.
    + right. reflexivity.
Defined.

(** ** Balances *)

Lemma balance_snoc (s : Student) (t : Transaction) :
  balance (with_transaction s t) = balance_step (balance s) t.
Proof. unfold balance. simpl. now rewrite fold_left_app. Qed.

(** C10: the balance of a student without transactions is 0.0, and the
    transactions are taken in order, each one once: a transaction whose
    [ttype] is "income" adds its amount to the balance of those before it,
    and one with any other [ttype], "expense" or not, subtracts its amount.
    [balance] is a total function, so nothing is raised; and building a
    transaction from a loaded dict accepts every string as [ttype]. *)
Theorem balance_by_ttype (s : Student) (t : Transaction) :
  balance {| student_id := student_id s; name := name s; transactions := [] |}
  = 0%float
  /\ (ttype t = "income" ->
      balance (with_transaction s t) = PrimFloat.add (balance s) (amount t))
  /\ (ttype t <> "income" ->
      balance (with_transaction s t) = PrimFloat.sub (balance s) (amount t))
  /\ Transaction_kwargs (Transaction_to_dict t) = Ok t.
Proof.
  split; [reflexivity|]. rewrite balance_snoc. unfold balance_step.
  split; [|split].
  - intros ->. reflexivity.
  - intros Hne. apply String.eqb_neq in Hne. now rewrite Hne.
  - destruct t. reflexivity.
Qed.

Lemma balance_by_ttype_example :
  balance (with_transaction alice
             {| ttype := "income"; amount := 5; description := "";
                date := "2024-03-01" |})
  = PrimFloat.add (balance alice) 5
  /\ balance (with_transaction alice
                {| ttype := "refund"; amount := 5; description := "";
                   date := "2024-03-01" |})
     = PrimFloat.sub (balance alice) 5.
Proof.
  split.
  - apply (proj1 (proj2 (balance_by_ttype alice
             {| ttype := "income"; amount := 5; description := "";
                date := "2024-03-01" |}))).
    reflexivity.
  - apply (proj1 (proj2 (proj2 (balance_by_ttype alice
             {| ttype := "refund"; amount := 5; description := "";
                date := "2024-03-01" |})))).
    simpl. intros H. discriminate H.
Defined.

Lemma record_all_found now calls : forall fm sid student,
  find_student fm sid = Some student ->
  fst (record_all now fm sid calls) = true ->
  exists student',
    find_student (snd (record_all now fm sid calls)) sid = Some student'
    /\ balance student' = fold_left call_step calls (balance student)
    /\ List.length (transactions student')
       = (List.length (transactions student) + List.length calls)%nat.
Proof.
  induction calls as [|c rest IH]; intros fm sid student Hfind Hall; simpl in *.
  - exists student. rewrite Nat.add_0_r. now repeat split.
  - destruct (valid_ttype (call_ttype c)) eqn:Hty.
    + rewrite (record_transaction_found now fm sid (call_ttype c)
                 (call_amount c) (call_description c) (call_date c)
                 student Hfind Hty) in *.
      set (tx := recorded now (call_ttype c) (call_amount c)
                   (call_description c) (call_date c)) in *.
      set (fm1 := {| students := dict_set sid (with_transaction student tx)
                                   (students fm) |}) in *.
      assert (Hfind1 : find_student fm1 sid = Some (with_transaction student tx))
        by apply dict_get_set_same.
      specialize (IH fm1 sid (with_transaction student tx) Hfind1).
      destruct (record_all now fm1 sid rest) as [rs fm2]. simpl in *.
      destruct (IH Hall) as [student' [Hf [Hb Hl]]].
      exists student'. split; [exact Hf|]. split.
      * rewrite Hb, balance_snoc. reflexivity.
      * rewrite Hl, length_app. simpl. lia.
    + exfalso. unfold record_transaction in Hall.
      rewrite Hfind, Hty in Hall. simpl in Hall.
      destruct (record_all now fm sid rest). simpl in Hall. discriminate.
Qed.

(** C4, as the code has it: after calls of [record_transaction] for one
    student that all returned true, the balance [student_report] gives is
    [round2] of the running balance, which starts from the balance the
    student had and, call by call in order, adds the rounded amount of an
    income and subtracts the rounded amount of an expense.  Each amount is
    rounded when stored, and the sums are float sums taken in call order. *)
Theorem report_balance_of_calls (now : string) (fm : FinanceManager)
    (sid : string) (student : Student) (calls : list call) :
  find_student fm sid = Some student ->
  fst (record_all now fm sid calls) = true ->
  option_map report_balance
    (student_report (snd (record_all now fm sid calls)) sid)
  = Some (round2 (fold_left call_step calls (balance student))).
Proof.
  intros Hfind Hall.
  destruct (record_all_found now calls fm sid student Hfind Hall)
    as [student' [Hf [Hb _]]].
  unfold student_report. rewrite Hf. simpl. now rewrite Hb.
Qed.

Lemma report_balance_of_calls_example :
  option_map report_balance
    (student_report (snd (record_all "2024-02-01" ledger_alice "S1" three_small))
       "S1")
  = Some (round2 (fold_left call_step three_small 0%float)).
Proof.
  apply (report_balance_of_calls "2024-02-01" ledger_alice "S1" alice three_small).
  - reflexivity.
  - reflexivity.
Defined.

(** The balance reported after the three calls is 0.0: each amount was stored
    as 0.0.  The sum of the amounts given is 3/256, which rounds to 0.01. *)
Lemma report_balance_is_not_spec_balance :
  fst (record_all "2024-02-01" ledger_alice "S1" three_small) = true
  /\ option_map report_balance
       (student_report
          (snd (record_all "2024-02-01" ledger_alice "S1" three_small)) "S1")
     = Some 0%float
  /\ spec_balance (map call_amount three_small) [] = 0.01%float
  /\ option_map report_balance
       (student_report
          (snd (record_all "2024-02-01" ledger_alice "S1" three_small)) "S1")
     <> Some (spec_balance (map call_amount three_small) []).
Proof.
  split; [reflexivity|]. split; [vm_compute; reflexivity|].
  split; [vm_compute; reflexivity|].
  intros H.
  apply (f_equal (fun o => match o with
                           | Some x => Prim2SF x
                           | None => S754_nan
                           end)) in H.
  vm_compute in H. discriminate H.
Qed.

(** The scenario of the specification: 1500.505 is stored as 1500.51, and
    after an expense of 200 the balance reported is 1300.51. *)
Example scenario_alice :
  let calls :=
    [ {| call_ttype := "income"; call_amount := 1500.505;
         call_description := "Grant"; call_date := Some "2024-01-10" |};
      {| call_ttype := "expense"; call_amount := 200;
         call_description := "Books"; call_date := Some "2024-01-15" |} ] in
  option_map (fun r => (report_balance r, report_transactions r))
    (student_report (snd (record_all "2024-02-01" ledger_alice "S1" calls)) "S1")
  = Some (1300.51%float,
          [ Transaction_to_dict
              {| ttype := "income"; amount := 1500.51;
                 description := "Grant"; date := "2024-01-10" |};
            Transaction_to_dict
              {| ttype := "expense"; amount := 200;
                 description := "Books"; date := "2024-01-15" |} ]).
Proof. vm_compute. reflexivity. Qed.

(** ** Saving and loading *)

Lemma Transaction_roundtrip (t : Transaction) :
  Transaction_kwargs (Transaction_to_dict t) = Ok t.
Proof. destruct t. reflexivity. Qed.

Lemma traverse_roundtrip (ts : list Transaction) :
  traverse Transaction_kwargs (map Transaction_to_dict ts) = Ok ts.
Proof.
  induction ts as [|t ts IH]; [reflexivity|].
  cbn [map traverse]. rewrite Transaction_roundtrip. cbn [bind].
  rewrite IH. reflexivity.
Qed.

Lemma Student_roundtrip (s : Student) : Student_of (Student_to_dict s) = Ok s.
Proof.
  destruct s as [sid nm ts]. unfold Student_of, Student_to_dict. simpl.
  rewrite traverse_roundtrip. reflexivity.
Qed.

(** Loading the saved list after [acc]: the students are appended one by one,
    since none of their keys is in [acc] or occurs twice. *)
Lemma load_loop_roundtrip (d : dict Student) : forall acc : dict Student,
  NoDup (keys (acc ++ d)) -> keys_match d ->
  load_loop (map Student_to_dict (values d)) acc = (Ok tt, acc ++ d).
Proof.
  induction d as [|[k s] d IH]; intros acc Hnd Hkm.
  - simpl. now rewrite app_nil_r.
  - cbn [values map snd load_loop]. rewrite Student_roundtrip.
    inversion Hkm as [|? ? Hk Hrest]; subst. simpl in Hk. subst k.
    assert (Hfresh : dict_get (student_id s) acc = None).
    { apply dict_get_none. unfold keys in *. rewrite map_app in Hnd.
      simpl in Hnd. apply NoDup_remove_2 in Hnd.
      intros Hin. apply Hnd. apply in_or_app. now left. }
    rewrite (dict_set_absent Student (student_id s) s acc Hfresh).
    replace (acc ++ (student_id s, s) :: d)
      with ((acc ++ [(student_id s, s)]) ++ d)
      in * by (now rewrite <- app_assoc).
    now apply IH.
Qed.

Lemma load_data_roundtrip (fm : FinanceManager) :
  ledger_ok fm ->
  load_data (JDict [("students", JList (map Student_to_dict (values (students fm))))])
  = (Ok tt, students fm).
Proof.
  intros [Hnd Hkm]. unfold load_data. simpl.
  now apply (load_loop_roundtrip (students fm) []).
Qed.

(** C2: for every reachable ledger, loading the file that [save] wrote, into
    any manager (a new one or not), returns true and leaves that manager
    equal to the ledger saved: the same students under the same keys in the
    same order, each with the same name and the same list of transactions,
    hence with the same balances. *)
Theorem save_load_roundtrip (fm fm0 : FinanceManager) (fs : filesys)
    (filename : string) :
  reachable fm ->
  load fm0 (snd (save fm fs filename)) filename
  = Some {| returned := true; printed := Loaded filename; after := fm |}.
Proof.
  intros Hreach. unfold load, save, write_file. simpl.
  rewrite String.eqb_refl.
  rewrite (load_data_roundtrip fm (reachable_ok fm Hreach)).
  now destruct fm.
Qed.

Lemma save_load_roundtrip_example :
  reachable ledger_two
  /\ load init (snd (save ledger_two no_files "students_finance.json"))
       "students_finance.json"
     = Some {| returned := true; printed := Loaded "students_finance.json";
               after := ledger_two |}.
Proof.
  split; [exact ledger_two_reachable|].
  exact (save_load_roundtrip ledger_two init no_files "students_finance.json"
           ledger_two_reachable).
Defined.

(** C9: a JSON object without a "students" member loads as the empty
    ledger, whatever the manager held, and [load] returns true; and an
    element without a "transactions" member is loaded as a student without
    transactions. *)
Theorem load_missing_lists (fm : FinanceManager) (fs : filesys)
    (filename : string) :
  (forall members,
     fs filename = Document (JDict members) ->
     dict_get "students" members = None ->
     load fm fs filename
     = Some {| returned := true; printed := Loaded filename; after := init |})
  /\ (forall members sid nm,
        fs filename = Document (JDict [("students", JList [JDict members])]) ->
        dict_get "transactions" members = None ->
        dict_get "student_id" members = Some (JStr sid) ->
        dict_get "name" members = Some (JStr nm) ->
        load fm fs filename
        = Some {| returned := true; printed := Loaded filename;
                  after := {| students := [(sid, new_student sid nm)] |} |}).
Proof.
  split.
  - intros members Hfile Hnone. unfold load, load_data. rewrite Hfile.
    simpl. rewrite Hnone. reflexivity.
  - intros members sid nm Hfile Htx Hsid Hnm. unfold load, load_data.
    rewrite Hfile. simpl. unfold Student_of. simpl.
    rewrite Htx, Hsid, Hnm. reflexivity.
Qed.

Lemma load_missing_lists_example :
  load ledger_two empty_object_file "students_finance.json"
  = Some {| returned := true; printed := Loaded "students_finance.json";
            after := init |}
  /\ load ledger_two bare_student_file "students_finance.json"
     = Some {| returned := true; printed := Loaded "students_finance.json";
               after := ledger_alice |}.
Proof.
  split.
  - apply (proj1 (load_missing_lists ledger_two empty_object_file
                    "students_finance.json") []); reflexivity.
  - apply (proj2 (load_missing_lists ledger_two bare_student_file
                    "students_finance.json")
             [("student_id", JStr "S1"); ("name", JStr "Alice")] "S1" "Alice");
      reflexivity.
Defined.

(** ** Loading a file that is missing or malformed *)

Lemma load_loop_prefix (pre : list json) : forall rest sts acc,
  traverse Student_of pre = Ok sts ->
  load_loop (pre ++ rest) acc = load_loop rest (insert_all sts acc).
Proof.
  induction pre as [|s pre IH]; intros rest sts acc Hpre; simpl in Hpre.
  - injection Hpre as <-. reflexivity.
  - cbn [app load_loop].
    destruct (Student_of s) as [student| |]; simpl in Hpre; try discriminate.
    destruct (traverse Student_of pre) as [sts'| |] eqn:E;
      simpl in Hpre; try discriminate.
    injection Hpre as <-. simpl. now apply IH.
Qed.

Lemma Student_of_needs_fields (members : list (string * json)) :
  dict_get "student_id" members = None \/ dict_get "name" members = None ->
  forall s, Student_of (JDict members) <> Ok s.
Proof.
  intros Hmiss s. unfold Student_of. cbn [py_get bind].
  destruct (py_iter _) as [ts| |]; cbn [bind]; try discriminate.
  destruct (traverse Transaction_kwargs ts) as [txs| |]; cbn [bind];
    try discriminate.
  cbn [py_getitem].
  destruct (dict_get "student_id" members) as [v|]; cbn [bind];
    [|discriminate].
  destruct (as_str v) as [sid| |]; cbn [bind]; try discriminate.
  destruct Hmiss as [Hs|Hn]; [discriminate|].
  rewrite Hn. cbn [bind]. discriminate.
Qed.

(** C1, as the code has it: [load] returns false for every malformed file.
    When the file cannot be read or is not JSON, the manager is left as it
    was.  When the file is JSON, the dictionary is emptied before the
    document is looked at: if the students cannot be listed the manager is
    left empty, and if an element cannot be turned into a student (one
    without "student_id" or "name" never can) the manager holds the students
    of the elements before it and nothing of its earlier state. *)
Theorem load_malformed (fm : FinanceManager) (fs : filesys) (filename : string) :
  (fs filename = NotJson \/ fs filename = Unreadable ->
     exists e, load fm fs filename
               = Some {| returned := false; printed := FailedToLoad e;
                         after := fm |})
  /\ (forall data e,
        fs filename = Document data ->
        bind (py_get data "students" (JList [])) py_iter = Raise e ->
        load fm fs filename
        = Some {| returned := false; printed := FailedToLoad e;
                  after := init |})
  /\ (forall data pre bad post sts e,
        fs filename = Document data ->
        bind (py_get data "students" (JList [])) py_iter
          = Ok (pre ++ bad :: post) ->
        traverse Student_of pre = Ok sts ->
        Student_of bad = Raise e ->
        load fm fs filename
        = Some {| returned := false; printed := FailedToLoad e;
                  after := {| students := insert_all sts [] |} |})
  /\ (forall members,
        dict_get "student_id" members = None \/ dict_get "name" members = None ->
        forall s, Student_of (JDict members) <> Ok s).
Proof.
  split; [|split; [|split]].
  - unfold load. intros [-> | ->]; eexists; reflexivity.
  - intros data e Hfile Hraise. unfold load, load_data.
    rewrite Hfile, Hraise. reflexivity.
  - intros data pre bad post sts e Hfile Hitems Hpre Hbad.
    unfold load, load_data. rewrite Hfile, Hitems.
    rewrite (load_loop_prefix pre (bad :: post) sts [] Hpre).
    cbn [load_loop]. rewrite Hbad. reflexivity.
  - exact Student_of_needs_fields.
Qed.

Lemma load_malformed_example :
  (exists e, load ledger_alice not_json_file "broken.json"
             = Some {| returned := false; printed := FailedToLoad e;
                       after := ledger_alice |})
  /\ load ledger_alice
       (fun _ => Document (JList [])) "students_finance.json"
     = Some {| returned := false; printed := FailedToLoad AttributeError;
               after := init |}
  /\ load ledger_alice half_bad_file "students_finance.json"
     = Some {| returned := false; printed := FailedToLoad KeyError;
               after := {| students := [("S2", bob)] |} |}
  /\ forall s, Student_of (JDict [("name", JStr "Eve")]) <> Ok s.
Proof.
  split; [|split; [|split]].
  - apply (proj1 (load_malformed ledger_alice not_json_file "broken.json")).
    left. reflexivity.
  - apply (proj1 (proj2 (load_malformed ledger_alice
                           (fun _ => Document (JList []))
                           "students_finance.json")) (JList []));
      reflexivity.
  - apply (proj1 (proj2 (proj2 (load_malformed ledger_alice half_bad_file
                                  "students_finance.json")))
             half_bad_document [Student_to_dict bob]
             (JDict [("name", JStr "Eve")]) [] [bob] KeyError);
      reflexivity.
  - apply (proj2 (proj2 (proj2 (load_malformed ledger_alice half_bad_file
                                  "students_finance.json")))).
    left. reflexivity.
Defined.

(** With Alice in the ledger, loading the file whose second student has no
    "student_id" returns false and leaves Bob, the first student of the
    file, in the ledger instead of Alice. *)
Lemma load_malformed_mutates :
  load ledger_alice half_bad_file "students_finance.json"
  = Some {| returned := false; printed := FailedToLoad KeyError;
            after := {| students := [("S2", bob)] |} |}
  /\ {| students := [("S2", bob)] |} <> ledger_alice.
Proof.
  split; [reflexivity|]. intros H. discriminate H.
Qed.

(** C3, as the code has it: [load] on a path without a file leaves the
    manager as it was and returns false, the value it also returns for a
    malformed file; only the message printed differs, "No data file found"
    for the missing file and "Failed to load data" for any other failure. *)
Theorem load_not_found (fm : FinanceManager) (fs : filesys) (filename : string) :
  fs filename = NoFile ->
  load fm fs filename
  = Some {| returned := false; printed := NoDataFile filename; after := fm |}
  /\ forall fm1 other r,
       fs other <> NoFile ->
       load fm1 fs other = Some r ->
       returned r = false ->
       exists e, printed r = FailedToLoad e.
Proof.
  intros Hfile. split.
  - unfold load. now rewrite Hfile.
  - intros fm1 other r Hother Hload Hfalse. unfold load in Hload.
    destruct (fs other) as [| | |data]; [congruence| | |].
    + injection Hload as <-. now exists OSError.
    + injection Hload as <-. now exists JSONDecodeError.
    + destruct (load_data data) as [[u|e|] d]; [| |discriminate].
      * injection Hload as <-. simpl in Hfalse. discriminate.
      * injection Hload as <-. now exists e.
Qed.

Lemma load_not_found_example :
  load ledger_alice not_json_file "missing.json"
  = Some {| returned := false; printed := NoDataFile "missing.json";
            after := ledger_alice |}
  /\ exists e,
       printed {| returned := false; printed := FailedToLoad JSONDecodeError;
                  after := ledger_alice |} = FailedToLoad e.
Proof.
  destruct (load_not_found ledger_alice not_json_file "missing.json" eq_refl)
    as [Hmissing Hother].
  split; [exact Hmissing|].
  apply (Hother ledger_alice "broken.json").
  - simpl. intros H. discriminate H.
  - reflexivity.
  - reflexivity.
Defined.

(** The value returned for a missing file is the value returned for a file
    that is not JSON. *)
Lemma not_found_returns_like_malformed :
  option_map returned (load ledger_alice not_json_file "missing.json")
  = option_map returned (load ledger_alice not_json_file "broken.json").
Proof. reflexivity. Qed.


(** * Further properties of the manager *)

(** ** More on dictionaries *)

Lemma dict_pop_absent (V : Type) (k : string) (d : dict V) :
  dict_get k d = None -> dict_pop k d = (None, d).
Proof.
  induction d as [|[k' v'] d IH]; simpl; [reflexivity|].
  destruct (String.eqb k k'); [discriminate|].
  intros H. now rewrite (IH H).
Qed.

Lemma dict_pop_last (V : Type) (k : string) (v : V) (d : dict V) :
  dict_get k d = None -> dict_pop k (d ++ [(k, v)]) = (Some v, d).
Proof.
  induction d as [|[k' v'] d IH]; simpl.
  - now rewrite String.eqb_refl.
  - destruct (String.eqb k k'); [discriminate|].
    intros H. now rewrite (IH H).
Qed.

Lemma dict_get_in_nodup (V : Type) (k : string) (v : V) (d : dict V) :
  NoDup (keys d) -> In (k, v) d -> dict_get k d = Some v.
Proof.
  induction d as [|[k' v'] d IH]; simpl; [tauto|].
  intros Hnd Hin. inversion Hnd as [|? ? Hnotin Hrest]; subst.
  destruct Hin as [E|Hin].
  - injection E as -> ->. now rewrite String.eqb_refl.
  - destruct (String.eqb_spec k k') as [->|Hne].
    + exfalso. apply Hnotin. change k' with (fst (k', v)).
      now apply in_map.
    + now apply IH.
Qed.

Lemma find_last (A : Type) (f : A -> bool) (l : list A) (x : A) :
  find f (l ++ [x])
  = match find f l with
    | Some y => Some y
    | None => if f x then Some x else None
    end.
Proof.
  induction l as [|y l IH]; simpl; [reflexivity|].
  destruct (f y); [reflexivity | exact IH].
Qed.

(** A lookup after [insert_all]: the last student of the list stored under
    the key, or else what the dictionary held. *)
Lemma dict_get_insert_all (sts : list Student) : forall (acc : dict Student) k,
  dict_get k (insert_all sts acc)
  = match find (fun s => String.eqb (student_id s) k) (rev sts) with
    | Some s => Some s
    | None => dict_get k acc
    end.
Proof.
  induction sts as [|s sts IH]; intros acc k; simpl; [reflexivity|].
  unfold insert_all in *. simpl. rewrite IH, find_last.
  destruct (find (fun s0 => String.eqb (student_id s0) k) (rev sts));
    [reflexivity|].
  destruct (String.eqb_spec (student_id s) k) as [<-|Hne].
  - apply dict_get_set_same.
  - apply dict_get_set_other. congruence.
Qed.

(** ** Reports and summaries *)

(** X1: in every reachable ledger the summary has one entry per student, in
    the order of the dictionary; the ids listed are the keys, none twice,
    and each entry gives the name, the rounded balance and the number of
    transactions of the student found under its id. *)
Theorem summary_lists_students (fm : FinanceManager) :
  reachable fm ->
  map summary_student_id (all_students_summary fm) = keys (students fm)
  /\ NoDup (map summary_student_id (all_students_summary fm))
  /\ forall e, In e (all_students_summary fm) ->
       exists s,
         find_student fm (summary_student_id e) = Some s
         /\ summary_name e = name s
         /\ summary_balance e = round2 (balance s)
         /\ summary_num_transactions e = List.length (transactions s).
Proof.
  intros Hreach. destruct (reachable_ok fm Hreach) as [Hnd Hkm].
  assert (Hids : map summary_student_id (all_students_summary fm)
                 = keys (students fm)).
  { unfold all_students_summary, values, keys. rewrite !map_map. simpl.
    apply map_ext_in. intros e He.
    unfold keys_match in Hkm. rewrite Forall_forall in Hkm.
    symmetry. exact (Hkm e He). }
  split; [exact Hids|]. split; [now rewrite Hids|].
  intros e He. unfold all_students_summary, values in He.
  rewrite map_map in He. apply in_map_iff in He.
  destruct He as [[k s] [<- Hin]]. simpl. exists s.
  split; [|repeat split].
  unfold find_student. apply dict_get_in_nodup; [exact Hnd|].
  unfold keys_match in Hkm. rewrite Forall_forall in Hkm.
  pose proof (Hkm (k, s) Hin) as E. simpl in E. now rewrite <- E.
Qed.

Lemma summary_lists_students_example :
  reachable ledger_two
  /\ map summary_student_id (all_students_summary ledger_two) = ["S1"; "S2"].
Proof.
  split; [exact ledger_two_reachable|].
  exact (proj1 (summary_lists_students ledger_two ledger_two_reachable)).
Defined.

(** X2: in every reachable ledger, a report exists exactly for the ids that
    [find_student] finds; it carries the id asked for, and the summary has an
    entry with the same id, name and balance whose count is the number of
    transactions listed in the report. *)
Theorem report_agrees_with_summary (fm : FinanceManager) (sid : string) :
  reachable fm ->
  (student_report fm sid = None <-> find_student fm sid = None)
  /\ forall r, student_report fm sid = Some r ->
       report_student_id r = sid
       /\ In {| summary_student_id := sid;
                summary_name := report_name r;
                summary_balance := report_balance r;
                summary_num_transactions :=
                  List.length (report_transactions r) |}
             (all_students_summary fm).
Proof.
  intros Hreach. destruct (reachable_ok fm Hreach) as [Hnd Hkm].
  unfold student_report.
  destruct (find_student fm sid) as [s|] eqn:Hfind.
  - split; [split; discriminate|].
    intros r [= <-]. simpl.
    pose proof (keys_match_get sid s (students fm) Hkm Hfind) as Hid.
    split; [now symmetry|].
    rewrite length_map. unfold all_students_summary, values.
    rewrite map_map. apply in_map_iff. exists (sid, s). simpl.
    split; [now rewrite <- Hid | now apply dict_get_some_in].
  - split; [tauto | discriminate].
Qed.

Lemma report_agrees_with_summary_example :
  reachable ledger_two
  /\ option_map report_student_id (student_report ledger_two "S2") = Some "S2".
Proof.
  split; [exact ledger_two_reachable|].
  destruct (student_report ledger_two "S2") as [r|] eqn:E; [|discriminate E].
  simpl. f_equal.
  exact (proj1 (proj2 (report_agrees_with_summary ledger_two "S2"
                          ledger_two_reachable) r E)).
Defined.

(** ** Adding and removing *)

(** X3: removing an id that is not in the ledger returns false and leaves
    the ledger as it is. *)
Theorem remove_student_absent (fm : FinanceManager) (sid : string) :
  find_student fm sid = None -> remove_student fm sid = (false, fm).
Proof.
  unfold find_student, remove_student. intros H.
  rewrite (dict_pop_absent Student sid (students fm) H). now destruct fm.
Qed.

Lemma remove_student_absent_example :
  remove_student ledger_alice "S9" = (false, ledger_alice).
Proof. apply (remove_student_absent ledger_alice "S9"). reflexivity. Defined.

(** X4: adding a student under a new id and removing it again gives back
    the ledger one started from, and both calls return true. *)
Theorem add_then_remove (fm : FinanceManager) (sid nm : string) :
  find_student fm sid = None ->
  fst (add_student fm sid nm) = true
  /\ remove_student (snd (add_student fm sid nm)) sid = (true, fm).
Proof.
  intros Hnone. unfold add_student, dict_in. unfold find_student in Hnone.
  rewrite Hnone. simpl. split; [reflexivity|].
  unfold remove_student. simpl.
  rewrite (dict_set_absent Student sid _ (students fm) Hnone).
  rewrite (dict_pop_last Student sid _ (students fm) Hnone).
  now destruct fm.
Qed.

Lemma add_then_remove_example :
  remove_student (snd (add_student ledger_alice "S2" "Bob")) "S2"
  = (true, ledger_alice).
Proof.
  apply (proj2 (add_then_remove ledger_alice "S2" "Bob" eq_refl)).
Defined.

(** X5: in a reachable ledger, removing an id and adding it again succeeds
    and gives a student without transactions, placed last: the transactions
    recorded under the id before are gone. *)
Theorem remove_then_add (fm : FinanceManager) (sid nm : string) :
  reachable fm ->
  add_student (snd (remove_student fm sid)) sid nm
  = (true,
     {| students :=
          filter (fun e => negb (String.eqb sid (fst e))) (students fm)
          ++ [(sid, new_student sid nm)] |}).
Proof.
  intros Hreach. destruct (reachable_ok fm Hreach) as [Hnd _].
  unfold add_student, dict_in.
  rewrite (remove_student_students fm sid Hnd).
  pose proof (dict_get_filter_out Student sid (students fm)) as Hgone.
  rewrite Hgone.
  now rewrite (dict_set_absent Student sid _ _ Hgone).
Qed.

Lemma remove_then_add_example :
  reachable ledger_two
  /\ add_student (snd (remove_student ledger_two "S1")) "S1" "Alice"
     = (true, {| students := [("S2", bob); ("S1", alice)] |}).
Proof.
  split; [exact ledger_two_reachable|].
  exact (remove_then_add ledger_two "S1" "Alice" ledger_two_reachable).
Defined.

(** ** More on loading *)

Lemma dict_set_in (V : Type) (k k0 : string) (v v0 : V) (d : dict V) :
  In (k0, v0) (dict_set k v d) -> In (k0, v0) d \/ v0 = v.
Proof.
  induction d as [|[k' v'] d IH]; simpl.
  - intros [[= <- <-]|[]]. now right.
  - destruct (String.eqb k k'); simpl.
    + intros [[= <- <-]|Hin]; [now right | left; now right].
    + intros [E|Hin]; [left; now left|].
      destruct (IH Hin) as [H|H]; [left; now right | now right].
Qed.

Lemma load_loop_from_items (items : list json) : forall acc k s,
  In (k, s) (snd (load_loop items acc)) ->
  In (k, s) acc \/ exists item, In item items /\ Student_of item = Ok s.
Proof.
  induction items as [|item items IH]; intros acc k s; simpl.
  - now left.
  - destruct (Student_of item) as [student| |] eqn:E; simpl;
      try (intros H; now left).
    intros H. destruct (IH _ _ _ H) as [Hacc|[item' [Hin Hof]]].
    + destruct (dict_set_in _ _ _ _ _ _ Hacc) as [Hold| ->].
      * now left.
      * right. exists item. split; [now left | exact E].
    + right. exists item'. split; [now right | exact Hof].
Qed.

(** X6: [load] never merges.  When the file is a JSON document, whether
    [load] then returns true or false, every student in the ledger afterwards
    was built from an element of the "students" list of the file; nothing of
    the ledger's earlier state is kept. *)
Theorem load_keeps_only_file_students (fm : FinanceManager) (fs : filesys)
    (filename : string) (data : json) (r : loaded) :
  fs filename = Document data ->
  load fm fs filename = Some r ->
  forall k s, In (k, s) (students (after r)) ->
    exists items item,
      bind (py_get data "students" (JList [])) py_iter = Ok items
      /\ In item items /\ Student_of item = Ok s.
Proof.
  intros Hfile Hload k s Hin. unfold load in Hload. rewrite Hfile in Hload.
  assert (Hd : In (k, s) (snd (load_data data))).
  { destruct (load_data data) as [[u|e|] d]; [| |discriminate];
      injection Hload as <-; exact Hin. }
  clear Hload Hin. unfold load_data in Hd.
  destruct (bind (py_get data "students" (JList [])) py_iter)
    as [items|e|]; simpl in Hd; try contradiction.
  destruct (load_loop_from_items items [] k s Hd) as [[]|[item [Hi Hs]]].
  exists items, item. now repeat split.
Qed.

Lemma load_keeps_only_file_students_example :
  exists items item,
    bind (py_get half_bad_document "students" (JList [])) py_iter = Ok items
    /\ In item items /\ Student_of item = Ok bob.
Proof.
  apply (load_keeps_only_file_students ledger_alice half_bad_file
           "students_finance.json" half_bad_document
           {| returned := false; printed := FailedToLoad KeyError;
              after := {| students := [("S2", bob)] |} |}
           eq_refl eq_refl "S2" bob).
  now left.
Defined.

(** X7: when every element of the list can be turned into a student, [load]
    returns true, and of several elements with the same "student_id" the
    last one is the student found under that id afterwards. *)
Theorem load_last_entry_wins (fm : FinanceManager) (fs : filesys)
    (filename : string) (data : json) (items : list json)
    (sts : list Student) :
  fs filename = Document data ->
  bind (py_get data "students" (JList [])) py_iter = Ok items ->
  traverse Student_of items = Ok sts ->
  load fm fs filename
  = Some {| returned := true; printed := Loaded filename;
            after := {| students := insert_all sts [] |} |}
  /\ forall sid,
       find_student {| students := insert_all sts [] |} sid
       = find (fun s => String.eqb (student_id s) sid) (rev sts).
Proof.
  intros Hfile Hitems Hsts. split.
  - unfold load, load_data. rewrite Hfile, Hitems.
    rewrite <- (app_nil_r items).
    rewrite (load_loop_prefix items [] sts [] Hsts). reflexivity.
  - intros sid. unfold find_student. simpl.
    rewrite dict_get_insert_all.
    now destruct (find (fun s => String.eqb (student_id s) sid) (rev sts)).
Qed.

Lemma load_last_entry_wins_example :
  find_student
    {| students := insert_all [alice; bob; new_student "S1" "Alicia"] [] |}
    "S1"
  = Some (new_student "S1" "Alicia").
Proof.
  apply (proj2 (load_last_entry_wins init
                  (fun _ => Document twice_alice_document) DATA_FILE
                  twice_alice_document
                  [Student_to_dict alice; Student_to_dict bob;
                   Student_to_dict (new_student "S1" "Alicia")]
                  [alice; bob; new_student "S1" "Alicia"]
                  eq_refl eq_refl eq_refl) "S1").
Defined.





(** * Properties of the command-line shell *)


Lemma io_spec_ret (A : Type) (a : A) (P : A -> Prop) (O : output -> Prop) :
  P a -> io_spec (io_ret a) P O.
Proof. intros H stdin. simpl. repeat split; [lia | exact H | constructor]. Qed.

Lemma io_spec_bind (A B : Type) (c : io A) (k : A -> io B)
    (P : A -> Prop) (Q : B -> Prop) (O : output -> Prop) :
  io_spec c P O -> (forall a, P a -> io_spec (k a) Q O) ->
  io_spec (io_bind c k) Q O.
Proof.
  intros Hc Hk stdin. unfold io_bind. specialize (Hc stdin).
  destruct (c stdin) as [a mid o1| |]; [|exact Hc | exact I].
  destruct Hc as [Hlen [Ha Ho1]]. specialize (Hk a Ha mid).
  destruct (k a mid) as [b rest o2| |]; [| |exact I].
  - destruct Hk as [Hlen' [Hb Ho2]].
    repeat split; [lia | exact Hb | apply Forall_app; now split].
  - apply Forall_app. now split.
Qed.

Lemma io_spec_print (o : output) (O : output -> Prop) :
  O o -> io_spec (print o) (fun _ => True) O.
Proof.
  intros H stdin. simpl. repeat split; [lia | now constructor].
Qed.

Lemma io_spec_input (prompt : string) (O : output -> Prop) :
  O (Text prompt) -> io_spec (input prompt) (fun _ => True) O.
Proof.
  intros H [|line rest]; simpl.
  - now constructor.
  - repeat split; [lia | now constructor].
Qed.

Ltac out_ok := unfold not_failed; discriminate.

Section CliFacts.
Variable strip : string -> string.
Variable parse_float : string -> option float.
Variable valid_date : string -> bool.

Lemma io_spec_input_nonempty (prompt : string) (O : output -> Prop) :
  O (Text prompt) -> O (Text "Please enter a non-empty value.") ->
  io_spec (input_nonempty strip prompt) (fun s => s <> "") O.
Proof.
  intros Hp Hq stdin. induction stdin as [|line rest IH]; simpl.
  - now constructor.
  - destruct (String.eqb_spec (strip line) "") as [E|Hne].
    + destruct (input_nonempty strip prompt rest) as [a rest' out|out|];
        [| |exact I].
      * destruct IH as [Hlen [Ha Ho]].
        repeat split; [lia | exact Ha | now repeat constructor].
      * now repeat constructor.
    + repeat split; [lia | exact Hne | now constructor].
Qed.

End CliFacts.


(** ** One turn of the loop *)

Lemma reachable_add fm (fs : filesys) sid nm :
  reachable fm -> reachable (snd (add_student fm sid nm)).
Proof.
  intros H. now apply (reach_exec (AddStudent sid nm) fm fs _ fs).
Qed.

Lemma reachable_remove fm (fs : filesys) sid :
  reachable fm -> reachable (snd (remove_student fm sid)).
Proof.
  intros H. now apply (reach_exec (RemoveStudent sid) fm fs _ fs).
Qed.

Lemma reachable_record now fm (fs : filesys) sid ty amt descr dt :
  reachable fm ->
  reachable (snd (record_transaction now fm sid ty amt descr dt)).
Proof.
  intros H.
  now apply (reach_exec (RecordTransaction now sid ty amt descr dt) fm fs _ fs).
Qed.

Lemma reachable_load fm fs filename r :
  reachable fm -> load fm fs filename = Some r -> reachable (after r).
Proof.
  intros H E. apply (reach_exec (Load filename) fm fs (after r) fs H).
  simpl. now rewrite E.
Qed.

Lemma turn_post_same (st : session) : turn_post st (Continue, st).
Proof. unfold turn_post. simpl. repeat split; [tauto | discriminate]. Qed.

Section TurnFacts.
Variable strip : string -> string.
Variable parse_float : string -> option float.
Variable valid_date : string -> bool.

Lemma choice_add_spec (st : session) :
  io_spec (choice_add strip st) (turn_post st) not_failed.
Proof.
  unfold choice_add.
  eapply io_spec_bind; [apply io_spec_input_nonempty; out_ok|].
  intros sid _.
  eapply io_spec_bind; [apply io_spec_input_nonempty; out_ok|].
  intros nm _.
  destruct (add_student (fst st) sid nm) as [ok fm'] eqn:E.
  eapply io_spec_bind;
    [apply io_spec_print; destruct ok; out_ok|].
  intros _ _. apply io_spec_ret. unfold turn_post. simpl.
  repeat split; [|discriminate].
  intros H. replace fm' with (snd (add_student (fst st) sid nm))
    by (now rewrite E).
  now apply reachable_add with (fs := snd st).
Qed.

Lemma choice_remove_spec (st : session) :
  io_spec (choice_remove strip st) (turn_post st) not_failed.
Proof.
  unfold choice_remove.
  eapply io_spec_bind; [apply io_spec_input_nonempty; out_ok|].
  intros sid _.
  destruct (remove_student (fst st) sid) as [ok fm'] eqn:E.
  eapply io_spec_bind;
    [apply io_spec_print; destruct ok; out_ok|].
  intros _ _. apply io_spec_ret. unfold turn_post. simpl.
  repeat split; [|discriminate].
  intros H. replace fm' with (snd (remove_student (fst st) sid))
    by (now rewrite E).
  now apply reachable_remove with (fs := snd st).
Qed.

Lemma ask_date_spec (now : string) :
  io_spec (ask_date strip valid_date now) (fun _ => True) not_failed.
Proof.
  unfold ask_date.
  eapply io_spec_bind; [apply io_spec_input; out_ok|].
  intros line _.
  destruct (String.eqb (strip line) ""); [now apply io_spec_ret|].
  destruct (valid_date (strip line)); [now apply io_spec_ret|].
  eapply io_spec_bind; [apply io_spec_print; out_ok|].
  intros _ _. now apply io_spec_ret.
Qed.

Lemma choice_record_spec (income : bool) (now : string) (st : session) :
  io_spec (choice_record strip parse_float valid_date income now st)
    (turn_post st) not_failed.
Proof.
  unfold choice_record.
  eapply io_spec_bind; [apply io_spec_input_nonempty; out_ok|].
  intros sid _.
  destruct (find_student (fst st) sid) as [student|] eqn:Hfind.
  - eapply io_spec_bind; [apply io_spec_input_nonempty; out_ok|].
    intros amount_str _.
    destruct (parse_float amount_str) as [amt|].
    + eapply io_spec_bind; [apply io_spec_input; out_ok|].
      intros line _.
      eapply io_spec_bind; [apply ask_date_spec|].
      intros dt _.
      set (ty := if income then "income" else "expense").
      set (desc := if String.eqb (strip line) "" then _ else _).
      assert (Hty : valid_ttype ty = true) by (subst ty; now destruct income).
      rewrite (record_transaction_found now (fst st) sid ty amt desc dt
                 student Hfind Hty).
      eapply io_spec_bind;
        [apply io_spec_print; destruct income; out_ok|].
      intros _ _. apply io_spec_ret. unfold turn_post. simpl.
      repeat split; [|discriminate].
      intros H.
      pose proof (reachable_record now (fst st) (snd st) sid ty amt desc dt H)
        as Hr.
      now rewrite (record_transaction_found now (fst st) sid ty amt desc dt
                     student Hfind Hty) in Hr.
    + eapply io_spec_bind; [apply io_spec_print; out_ok|].
      intros _ _. apply io_spec_ret. apply turn_post_same.
  - eapply io_spec_bind; [apply io_spec_print; out_ok|].
    intros _ _. apply io_spec_ret. apply turn_post_same.
Qed.

Lemma choice_report_spec (st : session) :
  io_spec (choice_report strip st) (turn_post st) not_failed.
Proof.
  unfold choice_report.
  eapply io_spec_bind; [apply io_spec_input_nonempty; out_ok|].
  intros sid _.
  destruct (student_report (fst st) sid);
    (eapply io_spec_bind; [apply io_spec_print; out_ok|]);
    intros _ _; apply io_spec_ret; apply turn_post_same.
Qed.

Lemma choice_summary_spec (st : session) :
  io_spec (choice_summary st) (turn_post st) not_failed.
Proof.
  unfold choice_summary.
  destruct (all_students_summary (fst st));
    (eapply io_spec_bind; [apply io_spec_print; out_ok|]);
    intros _ _; apply io_spec_ret; apply turn_post_same.
Qed.

Lemma call_save_spec (st : session) :
  io_spec (call_save st)
    (fun st' => fst st' = fst st
                /\ (forall g, g <> DATA_FILE -> snd st' g = snd st g)
                /\ snd st' DATA_FILE = Document (saved_document (fst st)))
    not_failed.
Proof.
  unfold call_save, save.
  eapply io_spec_bind; [apply io_spec_print; out_ok|].
  intros _ _. apply io_spec_ret. simpl. unfold write_file.
  repeat split.
  intros g Hg. apply String.eqb_neq in Hg. now rewrite Hg.
Qed.

Lemma call_load_spec (st : session) :
  io_spec (call_load st)
    (fun st' => (reachable (fst st) -> reachable (fst st'))
                /\ snd st' = snd st)
    not_failed.
Proof.
  intros stdin. unfold call_load.
  destruct (load (fst st) (snd st) DATA_FILE) as [r|] eqn:E; [|exact I].
  repeat split; [lia | | constructor; [out_ok | constructor]].
  simpl. intros H. exact (reachable_load (fst st) (snd st) DATA_FILE r H E).
Qed.

Lemma choice_exit_spec (st : session) :
  io_spec (choice_exit st) (turn_post st) not_failed.
Proof.
  unfold choice_exit.
  eapply io_spec_bind; [apply io_spec_print; out_ok|].
  intros _ _.
  eapply io_spec_bind; [apply call_save_spec|].
  intros st' [Hfm [Hother Hfile]].
  eapply io_spec_bind; [apply io_spec_print; out_ok|].
  intros _ _. apply io_spec_ret. unfold turn_post. simpl.
  rewrite Hfm. repeat split; [tauto | exact Hother | now intros _].
Qed.

Lemma dispatch_spec (choice now : string) (st : session) :
  io_spec (dispatch strip parse_float valid_date choice now st)
    (turn_post st) not_failed.
Proof.
  unfold dispatch.
  destruct (String.eqb choice "1"); [apply choice_add_spec|].
  destruct (String.eqb choice "2"); [apply choice_remove_spec|].
  destruct (String.eqb choice "3" || String.eqb choice "4");
    [apply choice_record_spec|].
  destruct (String.eqb choice "5"); [apply choice_report_spec|].
  destruct (String.eqb choice "6"); [apply choice_summary_spec|].
  destruct (String.eqb choice "7").
  { eapply io_spec_bind; [apply call_save_spec|].
    intros st' [Hfm [Hother _]]. apply io_spec_ret. unfold turn_post. simpl.
    rewrite Hfm. repeat split; [tauto | exact Hother | discriminate]. }
  destruct (String.eqb choice "8").
  { eapply io_spec_bind; [apply call_load_spec|].
    intros st' [Hreach Hfs]. apply io_spec_ret. unfold turn_post. simpl.
    rewrite Hfs. repeat split; [exact Hreach | discriminate]. }
  destruct (String.eqb choice "9"); [apply choice_exit_spec|].
  eapply io_spec_bind; [apply io_spec_print; out_ok|].
  intros _ _. apply io_spec_ret. apply turn_post_same.
Qed.

(** A turn reads at least the line of the choice. *)
Lemma iteration_spec (now : string) (st : session) (stdin : list string) :
  match iteration strip parse_float valid_date now st stdin with
  | Ret r rest out =>
      List.length rest < List.length stdin
      /\ turn_post st r /\ Forall not_failed out
  | EOFError out => Forall not_failed out
  | NoModel => True
  end.
Proof.
  assert (Hmenu : Forall not_failed main_menu)
    by (repeat constructor; out_ok).
  unfold iteration, io_bind, print_menu, input.
  destruct stdin as [|line rest0].
  - apply Forall_app. split; [exact Hmenu | constructor; [out_ok|constructor]].
  - pose proof (dispatch_spec (strip line) now st rest0) as H.
    destruct (dispatch strip parse_float valid_date (strip line) now st rest0)
      as [r rest out| out|]; [| |exact I].
    + destruct H as [Hlen [Hpost Hout]].
      split; [simpl; lia|]. split; [exact Hpost|].
      apply Forall_app. split; [exact Hmenu|].
      constructor; [out_ok | exact Hout].
    + apply Forall_app. split; [exact Hmenu|].
      constructor; [out_ok | exact H].
Qed.
End TurnFacts.

(** ** Whole runs *)

Lemma ending_ok_after_output (fs0 : filesys) (out : list output) (e : ending) :
  Forall not_failed out -> ending_ok fs0 e -> ending_ok fs0 (after_output out e).
Proof.
  intros Hout. destruct e as [st rest out'|st out'| |]; simpl; try tauto.
  - intros [Hr [Hf [Hd Ho]]]. repeat split; try assumption.
    apply Forall_app. now split.
  - intros [Hr [Hf Ho]]. repeat split; try assumption.
    apply Forall_app. now split.
Qed.

Section RunFacts.
Variable strip : string -> string.
Variable parse_float : string -> option float.
Variable valid_date : string -> bool.

Lemma cli_loop_spec (fs0 : filesys) (clock : nat -> string) :
  forall fuel i st stdin,
    List.length stdin < fuel ->
    reachable (fst st) ->
    (forall g, g <> DATA_FILE -> snd st g = fs0 g) ->
    ending_ok fs0
      (cli_loop strip parse_float valid_date fuel clock i st stdin).
Proof.
  induction fuel as [|fuel IH]; intros i st stdin Hfuel Hreach Hfiles;
    [lia|].
  simpl.
  pose proof (iteration_spec strip parse_float valid_date (clock i) st stdin)
    as H.
  destruct (iteration strip parse_float valid_date (clock i) st stdin)
    as [[c st'] rest out|out|].
  - destruct H as [Hlen [[Hr [Hf Hb]] Hout]]. simpl in *. destruct c.
    + apply ending_ok_after_output; [exact Hout|].
      apply IH; [lia | now apply Hr|].
      intros g Hg. transitivity (snd st g); [now apply Hf | now apply Hfiles].
    + simpl. repeat split; [now apply Hr | | now apply Hb | exact Hout].
      intros g Hg. transitivity (snd st g); [now apply Hf | now apply Hfiles].
  - simpl. now repeat split.
  - exact I.
Qed.

Lemma run_cli_spec (clock : nat -> string) (fs : filesys)
    (stdin : list string) :
  ending_ok fs (run_cli strip parse_float valid_date clock fs stdin).
Proof.
  unfold run_cli.
  pose proof (call_load_spec (init, fs) stdin) as H.
  destruct (call_load (init, fs) stdin) as [st rest out|out|];
    [| |exact I].
  - destruct H as [_ [[Hreach Hfs] Hout]]. simpl in Hreach, Hfs.
    apply ending_ok_after_output; [exact Hout|].
    apply cli_loop_spec; [lia | apply Hreach; apply reach_init|].
    intros g _. exact (f_equal (fun f : filesys => f g) Hfs).
  - simpl. repeat split; [apply reach_init | exact H].
Qed.

(** X10: on every finite input [run_cli] comes to an end: each turn of the
    loop reads at least the line of the choice, so the loop stops, by choice
    9 or by the EOFError of [input] when the lines are used up. *)
Theorem run_cli_ends (clock : nat -> string) (fs : filesys)
    (stdin : list string) :
  run_cli strip parse_float valid_date clock fs stdin <> OutOfFuel.
Proof.
  intros E. pose proof (run_cli_spec clock fs stdin) as H.
  rewrite E in H. exact H.
Qed.

(** X11: when [run_cli] ends by choice 9, the data file holds the ledger of
    that moment: [load] from it, into any manager, returns true and gives
    that ledger back, so the next session starts where this one stopped. *)
Theorem run_cli_exit_is_saved (clock : nat -> string) (fs : filesys)
    (stdin : list string) (st : session) (rest : list string)
    (out : list output) :
  run_cli strip parse_float valid_date clock fs stdin = Exited st rest out ->
  forall fm0,
    load fm0 (snd st) DATA_FILE
    = Some {| returned := true; printed := Loaded DATA_FILE;
              after := fst st |}.
Proof.
  intros E fm0. pose proof (run_cli_spec clock fs stdin) as H.
  rewrite E in H. destruct H as [Hreach [_ [Hdoc _]]].
  unfold load. rewrite Hdoc. unfold saved_document.
  rewrite (load_data_roundtrip (fst st) (reachable_ok (fst st) Hreach)).
  now destruct (fst st).
Qed.

(** X12: however [run_cli] ends, by choice 9 or by EOFError, the ledger it
    held at that point is a reachable one: no key twice, and every key the
    [student_id] of its student. *)
Theorem run_cli_keeps_invariant (clock : nat -> string) (fs : filesys)
    (stdin : list string) (st : session) :
  (exists rest out,
     run_cli strip parse_float valid_date clock fs stdin = Exited st rest out)
  \/ (exists out,
        run_cli strip parse_float valid_date clock fs stdin = Crashed st out) ->
  reachable (fst st) /\ ledger_ok (fst st).
Proof.
  intros E. pose proof (run_cli_spec clock fs stdin) as H.
  assert (Hreach : reachable (fst st)).
  { destruct E as [[rest [out E]]|[out E]]; rewrite E in H; apply H. }
  split; [exact Hreach | now apply reachable_ok].
Qed.

(** X13: [run_cli] writes no file but the data file: every other path holds
    at the end what it held at the start. *)
Theorem run_cli_writes_only_data_file (clock : nat -> string) (fs : filesys)
    (stdin : list string) (st : session) :
  (exists rest out,
     run_cli strip parse_float valid_date clock fs stdin = Exited st rest out)
  \/ (exists out,
        run_cli strip parse_float valid_date clock fs stdin = Crashed st out) ->
  forall g, g <> DATA_FILE -> snd st g = fs g.
Proof.
  intros E. pose proof (run_cli_spec clock fs stdin) as H.
  destruct E as [[rest [out E]]|[out E]]; rewrite E in H; apply H.
Qed.

(** X14: [run_cli] never prints "Failed to record transaction.": it calls
    [record_transaction] only for a student it has just found and with the
    type "income" or "expense", and such a call returns true. *)
Theorem run_cli_never_fails_to_record (clock : nat -> string) (fs : filesys)
    (stdin : list string) (st : session) (out : list output) :
  (exists rest,
     run_cli strip parse_float valid_date clock fs stdin = Exited st rest out)
  \/ run_cli strip parse_float valid_date clock fs stdin = Crashed st out ->
  ~ In (Text "Failed to record transaction.") out.
Proof.
  intros E Hin. pose proof (run_cli_spec clock fs stdin) as H.
  assert (Hout : Forall not_failed out).
  { destruct E as [[rest E]|E]; rewrite E in H; apply H. }
  rewrite Forall_forall in Hout. now apply (Hout _ Hin).
Qed.
End RunFacts.

Lemma demo_run_exits :
  exists fs' out, demo_run = Exited (ledger_alice, fs') [] out.
Proof. do 2 eexists. reflexivity. Defined.

Lemma run_cli_ends_example : demo_run <> OutOfFuel.
Proof.
  exact (run_cli_ends strip_one (fun _ => None) (fun _ => false) demo_clock
           no_files ["1"; " S1"; "Alice"; "9"]).
Defined.

Lemma run_cli_exit_is_saved_example :
  exists fs' out,
    demo_run = Exited (ledger_alice, fs') [] out
    /\ load init fs' DATA_FILE
       = Some {| returned := true; printed := Loaded DATA_FILE;
                 after := ledger_alice |}.
Proof.
  destruct demo_run_exits as [fs' [out E]]. exists fs', out.
  split; [exact E|].
  exact (run_cli_exit_is_saved strip_one (fun _ => None) (fun _ => false)
           demo_clock no_files ["1"; " S1"; "Alice"; "9"]
           (ledger_alice, fs') [] out E init).
Defined.

Lemma run_cli_keeps_invariant_example :
  exists fs' out,
    demo_run = Exited (ledger_alice, fs') [] out
    /\ reachable ledger_alice /\ ledger_ok ledger_alice.
Proof.
  destruct demo_run_exits as [fs' [out E]]. exists fs', out.
  split; [exact E|].
  apply (run_cli_keeps_invariant strip_one (fun _ => None) (fun _ => false)
           demo_clock no_files ["1"; " S1"; "Alice"; "9"] (ledger_alice, fs')).
  left. now exists [], out.
Defined.

Lemma run_cli_writes_only_data_file_example :
  exists fs' out,
    demo_run = Exited (ledger_alice, fs') [] out
    /\ fs' "notes.txt" = NoFile.
Proof.
  destruct demo_run_exits as [fs' [out E]]. exists fs', out.
  split; [exact E|].
  apply (run_cli_writes_only_data_file strip_one (fun _ => None)
           (fun _ => false) demo_clock no_files ["1"; " S1"; "Alice"; "9"]
           (ledger_alice, fs')).
  - left. now exists [], out.
  - intros H. discriminate H.
Defined.

Lemma run_cli_never_fails_to_record_example :
  exists fs' out,
    demo_run = Exited (ledger_alice, fs') [] out
    /\ ~ In (Text "Failed to record transaction.") out.
Proof.
  destruct demo_run_exits as [fs' [out E]]. exists fs', out.
  split; [exact E|].
  apply (run_cli_never_fails_to_record strip_one (fun _ => None)
           (fun _ => false) demo_clock no_files ["1"; " S1"; "Alice"; "9"]
           (ledger_alice, fs') out).
  left. now exists [].
Defined.

(** ** What the menu records *)

Section RecordFacts.
Variable strip : string -> string.
Variable parse_float : string -> option float.
Variable valid_date : string -> bool.


End RecordFacts.


(** ** A "students" member that is not a list *)

(** X16: when the "students" member of the document is not a list, [load]
    leaves the ledger empty.  An empty string and an empty object are gone
    through like an empty list and [load] returns true; a string or an object
    that is not empty yields strings, on which [.get] raises AttributeError;
    null, a boolean or a number is not iterable and raises TypeError. *)
Theorem load_students_not_a_list (fm : FinanceManager) (fs : filesys)
    (filename : string) (members : list (string * json)) (v : json) :
  fs filename = Document (JDict members) ->
  dict_get "students" members = Some v ->
  match v with
  | JList _ => True
  | JStr EmptyString | JDict [] =>
      load fm fs filename
      = Some {| returned := true; printed := Loaded filename; after := init |}
  | JStr _ | JDict _ =>
      load fm fs filename
      = Some {| returned := false; printed := FailedToLoad AttributeError;
                after := init |}
  | JNull | JBool _ | JInt _ | JFloat _ =>
      load fm fs filename
      = Some {| returned := false; printed := FailedToLoad TypeError;
                after := init |}
  end.
Proof.
  intros Hfile Hv. unfold load, load_data. rewrite Hfile. simpl.
  rewrite Hv.
  destruct v as [| | | |s|l|d]; try reflexivity; try exact I.
  - destruct s; reflexivity.
  - destruct d as [|[k x] d]; reflexivity.
Qed.

Lemma load_students_not_a_list_example :
  load ledger_alice
    (fun _ => Document (JDict [("students", JStr "none")])) DATA_FILE
  = Some {| returned := false; printed := FailedToLoad AttributeError;
            after := init |}.
Proof.
  exact (load_students_not_a_list ledger_alice
           (fun _ => Document (JDict [("students", JStr "none")])) DATA_FILE
           [("students", JStr "none")] (JStr "none") eq_refl eq_refl).
Defined.
